(** * tiny-agent: the streaming message parser and the presentation loop

    A shallow embedding of [src/tiny_agent.py]: the regex-driven
    [MessageParser.parse_assistant_message], the tool dispatcher
    [ToolExecutor.execute_tool], and the methods of [Task] that drive a
    conversation ([_present_content], [_make_request], [_task_loop],
    [start_task]).

    Conventions.
    - A Python [str] is a [string]; its characters are the code points
      below 256, and the character classes ([str.isspace], the regex
      class [\w], [str.lower]) are Python's on that range.
    - A [dict] with string keys is an association list kept in insertion
      order, updated in place when a key is assigned again.
    - The backend, the operator at the keyboard and the file system are
      the environment: an [Env] record of functions, and a [World] that
      records what has happened so far.  The operator answers every
      prompt ([input] does not meet the end of its input).
    - A call returns, raises an [Exception], or never returns ([Res]).
      What [print] writes is not part of the state, and the depth of the
      interpreter's stack is not bounded. *)

From Stdlib Require Import String Ascii List Bool Arith Lia.
Import ListNotations.

Local Open Scope list_scope.
Local Open Scope string_scope.
Local Open Scope nat_scope.

(** ** Python strings *)

Module PyStr.

Definition nl : string := String (ascii_of_nat 10) EmptyString.

(** Truth value of a string: [if s:] holds for the non-empty ones. *)
Definition truthy (s : string) : bool :=
  match s with
  | EmptyString => false
  | String _ _ => true
  end.

Definition between (lo hi n : nat) : bool := (lo <=? n) && (n <=? hi).

(** [str.isspace] on one character. *)
Definition isspace (c : ascii) : bool :=
  let n := nat_of_ascii c in
  between 9 13 n || between 28 32 n || (n =? 133) || (n =? 160).

(** The regex class [\w] on one character (str patterns: alphanumeric
    in the Unicode sense, or the underscore). *)
Definition isword (c : ascii) : bool :=
  let n := nat_of_ascii c in
  between 48 57 n || between 65 90 n || (n =? 95) || between 97 122 n
  || (n =? 170) || between 178 179 n || (n =? 181) || between 185 186 n
  || between 188 190 n || between 192 214 n || between 216 246 n
  || between 248 255 n.

Definition lower_char (c : ascii) : ascii :=
  let n := nat_of_ascii c in
  if between 65 90 n || between 192 214 n || between 216 222 n
  then ascii_of_nat (n + 32) else c.

Fixpoint lower (s : string) : string :=
  match s with
  | EmptyString => EmptyString
  | String c s' => String (lower_char c) (lower s')
  end.

Fixpoint lstrip (s : string) : string :=
  match s with
  | EmptyString => EmptyString
  | String c s' => if isspace c then lstrip s' else s
  end.

Fixpoint rstrip (s : string) : string :=
  match s with
  | EmptyString => EmptyString
  | String c s' =>
      match rstrip s' with
      | EmptyString => if isspace c then EmptyString else String c EmptyString
      | r => String c r
      end
  end.

(** [s.strip()] *)
Definition strip (s : string) : string := rstrip (lstrip s).

(** [s[n:]] *)
Fixpoint drop (n : nat) (s : string) : string :=
  match n, s with
  | O, _ => s
  | S _, EmptyString => EmptyString
  | S k, String _ s' => drop k s'
  end.

(** [s[a:b]] for [a <= b]. *)
Definition slice (s : string) (a b : nat) : string := substring a (b - a) s.

(** [s.find(sub)]: offset of the first occurrence of [sub] in [s]. *)
Fixpoint find (sub s : string) : option nat :=
  if String.prefix sub s then Some 0
  else match s with
       | EmptyString => None
       | String _ s' => option_map S (find sub s')
       end.

(** [sep.join(parts)] *)
Fixpoint join (sep : string) (parts : list string) : string :=
  match parts with
  | [] => EmptyString
  | [p] => p
  | p :: ps => p ++ sep ++ join sep ps
  end.

End PyStr.

(** ** Python dictionaries with string keys *)

Module PyDict.

Definition t : Type := list (string * string).

Definition empty : t := [].

(** [d.get(k, default)] *)
Fixpoint get (d : t) (k default : string) : string :=
  match d with
  | [] => default
  | (k', v) :: d' => if String.eqb k' k then v else get d' k default
  end.

(** [d[k] = v] *)
Fixpoint set (d : t) (k v : string) : t :=
  match d with
  | [] => [(k, v)]
  | (k', v') :: d' =>
      if String.eqb k' k then (k', v) :: d' else (k', v') :: set d' k v
  end.

End PyDict.

(** ** Content blocks *)

(** [TextBlock] and [ToolUseBlock]; the [type] field of each dataclass is
    a constant and the code tells them apart with [isinstance]. *)
Inductive Block : Type :=
| TextBlock (content : string) (partial : bool)
| ToolUseBlock (name : string) (params : PyDict.t) (partial : bool).

Definition partial (b : Block) : bool :=
  match b with
  | TextBlock _ p => p
  | ToolUseBlock _ _ p => p
  end.

Definition is_tool_use (b : Block) : bool :=
  match b with
  | TextBlock _ _ => false
  | ToolUseBlock _ _ _ => true
  end.

(** [block.partial = False] *)
Definition finalize (b : Block) : Block :=
  match b with
  | TextBlock c _ => TextBlock c false
  | ToolUseBlock n p _ => ToolUseBlock n p false
  end.

(** [isinstance(block, ToolUseBlock) and not block.partial], with the
    name of the completion tool. *)
Definition is_completion (b : Block) : bool :=
  match b with
  | ToolUseBlock name _ false => (name =? "attempt_completion")%string
  | _ => false
  end.

(** ** Regular expressions of the parser *)

Module Re.

(** One match object: [span()], [group(1)], [group(2)]. *)
Record Match : Type := mkMatch {
  m_start : nat;
  m_end : nat;
  group1 : string;
  group2 : string
}.

(** [<name>(.*?)</name>] anchored at the head of [s], for one fixed
    [name]: the lazy [.*?] (with DOTALL) stops at the first closing
    tag.  Returns group 2 and the length of the match. *)
Definition match_tag (name s : string) : option (string * nat) :=
  let opening := "<" ++ name ++ ">" in
  let closing := "</" ++ name ++ ">" in
  if String.prefix opening s then
    let rest := PyStr.drop (String.length opening) s in
    match PyStr.find closing rest with
    | Some k => Some (substring 0 k rest, String.length opening + k + String.length closing)
    | None => None
    end
  else None.

(** An anchored pattern: group 1, group 2 and the length matched. *)
Definition pattern : Type := string -> option (string * string * nat).

(** The alternation [(n1|n2|...)] in front of the tag body: the
    alternatives are tried in order, the next one when the rest of the
    pattern fails. *)
Fixpoint match_alt (names : list string) : pattern := fun s =>
  match names with
  | [] => None
  | n :: ns =>
      match match_tag n s with
      | Some (g2, len) => Some (n, g2, len)
      | None => match_alt ns s
      end
  end.

Definition tool_names : list string :=
  ["read_file"; "write_to_file"; "execute_command"; "list_files";
   "attempt_completion"].

(** [<(read_file|write_to_file|execute_command|list_files|attempt_completion)>(.*?)</\1>] *)
Definition tool_pattern : pattern := match_alt tool_names.

(** The longest run of word characters at the head of [s]. *)
Fixpoint word_run (s : string) : string :=
  match s with
  | EmptyString => EmptyString
  | String c s' => if PyStr.isword c then String c (word_run s') else EmptyString
  end.

(** [<(\w+)>(.*?)</\1>]: the greedy [\w+] takes the whole run of word
    characters; a shorter run is followed by a word character, never
    by [>], so backtracking into it cannot succeed. *)
Definition param_pattern : pattern := fun s =>
  match s with
  | String "<"%char s1 =>
      let w := word_run s1 in
      if PyStr.truthy w then
        match match_tag w s with
        | Some (g2, len) => Some (w, g2, len)
        | None => None
        end
      else None
  | _ => None
  end.

(** [re.finditer]: the matches from left to right, each search
    resuming where the previous match ended.  [pos] is the offset of
    [s] in the whole subject, [skip] the number of characters still
    covered by the previous match. *)
Fixpoint finditer_from (p : pattern) (s : string) (pos skip : nat)
  : list Match :=
  match s with
  | EmptyString => []
  | String _ s' =>
      match skip with
      | S k => finditer_from p s' (S pos) k
      | O =>
          match p s with
          | Some (g1, g2, len) =>
              mkMatch pos (pos + len) g1 g2
                :: finditer_from p s' (S pos) (len - 1)
          | None => finditer_from p s' (S pos) 0
          end
      end
  end.

Definition finditer (p : pattern) (s : string) : list Match :=
  finditer_from p s 0 0.

End Re.

(** ** MessageParser *)

Module MessageParser.

(** The inner loop: [params[param_match.group(1)] = param_match.group(2).strip()]. *)
Definition parse_params (tool_content : string) : PyDict.t :=
  fold_left
    (fun params param_match =>
       PyDict.set params (Re.group1 param_match)
         (PyStr.strip (Re.group2 param_match)))
    (Re.finditer Re.param_pattern tool_content)
    PyDict.empty.

(** One iteration of the loop over the tool matches; the loop state is
    [content_blocks] and [last_end]. *)
Definition parse_step (message : string)
    (st : list Block * nat) (m : Re.Match) : list Block * nat :=
  let '(content_blocks, last_end) := st in
  let content_blocks :=
    if last_end <? Re.m_start m then
      let text_content :=
        PyStr.strip (PyStr.slice message last_end (Re.m_start m)) in
      if PyStr.truthy text_content
      then (content_blocks ++ [TextBlock text_content false])%list
      else content_blocks
    else content_blocks in
  let tool_name := Re.group1 m in
  let tool_content := PyStr.strip (Re.group2 m) in
  let params := parse_params tool_content in
  ((content_blocks ++ [ToolUseBlock tool_name params false])%list, Re.m_end m).

(** What follows the loop: the text after the last match, and the
    fallback for a message that produced no block. *)
Definition parse_finish (message : string) (st : list Block * nat)
  : list Block :=
  let '(content_blocks, last_end) := st in
  let content_blocks :=
    if last_end <? String.length message then
      let remaining_text := PyStr.strip (PyStr.drop last_end message) in
      if PyStr.truthy remaining_text
      then (content_blocks ++ [TextBlock remaining_text false])%list
      else content_blocks
    else content_blocks in
  match content_blocks with
  | [] =>
      if PyStr.truthy (PyStr.strip message)
      then [TextBlock (PyStr.strip message) false]
      else []
  | _ => content_blocks
  end.

Definition parse_loop (message : string) : list Block * nat :=
  fold_left (parse_step message)
    (Re.finditer Re.tool_pattern message) ([], 0).

Definition parse_assistant_message (message : string) : list Block :=
  parse_finish message (parse_loop message).

End MessageParser.

(** ** ToolExecutor *)

Module ToolExecutor.

(** How a call ends: it returns a string, or it raises an [Exception]
    [e], kept as [str(e)]. *)
Inductive outcome : Type :=
| Returned (s : string)
| Raised (e : string).

Section Dispatch.

(** The file system and the processes the tool bodies act on. *)
Variable FS : Type.

(** The four tool bodies.  They read and write files and run shell
    commands; here they are operations of the environment, each of
    which returns or raises and may change the file system. *)
Record Tools : Type := mkTools {
  _read_file : string -> FS -> outcome * FS;
  _write_file : string -> string -> FS -> outcome * FS;
  _execute_command : string -> FS -> outcome * FS;
  _list_files : string -> FS -> outcome * FS
}.

Variable tools : Tools.

(** The body of the [try] in [execute_tool]. *)
Definition dispatch (name : string) (params : PyDict.t) (fs : FS)
  : outcome * FS :=
  if (name =? "read_file")%string then
    _read_file tools (PyDict.get params "path" EmptyString) fs
  else if (name =? "write_to_file")%string then
    _write_file tools (PyDict.get params "path" EmptyString)
      (PyDict.get params "content" EmptyString) fs
  else if (name =? "execute_command")%string then
    _execute_command tools (PyDict.get params "command" EmptyString) fs
  else if (name =? "list_files")%string then
    _list_files tools (PyDict.get params "path" ".") fs
  else if (name =? "attempt_completion")%string then
    (Returned ("Task completed: " ++ PyDict.get params "result" "Done"), fs)
  else
    (Returned ("Unknown tool: " ++ name), fs).

(** [try: ... except Exception as e: return f"Error: {str(e)}"] *)
Definition execute_tool (name : string) (params : PyDict.t) (fs : FS)
  : outcome * FS :=
  match dispatch name params fs with
  | (Returned s, fs') => (Returned s, fs')
  | (Raised e, fs') => (Returned ("Error: " ++ e), fs')
  end.

End Dispatch.

Arguments _read_file {FS}.
Arguments _write_file {FS}.
Arguments _execute_command {FS}.
Arguments _list_files {FS}.
Arguments dispatch {FS}.
Arguments execute_tool {FS}.

End ToolExecutor.

(** ** The environment of a task *)

(** One entry of a message list: [{"role": ..., "content": ...}]. *)
Record Message : Type := mkMessage {
  role : string;
  content : string
}.

(** One entry of a user content list: [{"type": ..., "text": ...}]. *)
Record ContentItem : Type := mkItem {
  item_type : string;
  item_text : string
}.

Record StreamChunk : Type := mkChunk {
  chunk_type : string;
  chunk_text : option string;
  input_tokens : option nat;
  output_tokens : option nat
}.

(** What [create_message_stream] yields for one request: the chunks, and
    the exception that ends the stream when the backend fails (on
    opening the stream when there is no chunk before it). *)
Record Reply : Type := mkReply {
  chunks : list StreamChunk;
  failure : option string
}.

(** What can be observed of a run.  [EvVisit] is the read
    [block = assistant_message_content[current_streaming_content_index]]
    of [_present_content]; the other three are the calls that leave the
    task: the request to the backend, the tool call with its result, and
    the line typed at the [input] prompt. *)
Inductive Event : Type :=
| EvRequest (messages : list Message)
| EvVisit (index : nat) (block : Block)
| EvExecute (block : Block) (result : string)
| EvInput (line : string).

Section Environment.

Variable FS : Type.

(** The collaborators of a task: the tool bodies, the backend (its
    answer to the n-th request, given the messages) and the operator
    (the n-th line typed; the operator answers every prompt). *)
Record Env : Type := mkEnv {
  tools : ToolExecutor.Tools FS;
  create_message_stream : nat -> list Message -> Reply;
  input : nat -> string
}.

Record World : Type := mkWorld {
  fs : FS;
  n_requests : nat;
  n_inputs : nat;
  trace : list Event
}.

Definition log (e : Event) (w : World) : World :=
  mkWorld (fs w) (n_requests w) (n_inputs w) (trace w ++ [e]).

End Environment.

Arguments tools {FS}.
Arguments create_message_stream {FS}.
Arguments input {FS}.
Arguments mkWorld {FS}.
Arguments fs {FS}.
Arguments n_requests {FS}.
Arguments n_inputs {FS}.
Arguments trace {FS}.
Arguments log {FS}.

(** ** TaskState and Task *)

Record TaskState : Type := mkTaskState {
  is_streaming : bool;
  current_streaming_content_index : nat;
  assistant_message_content : list Block;
  user_message_content : list ContentItem;
  user_message_content_ready : bool;
  abort : bool
}.

(** The fields of a [Task] that change.  [next_task] is the attribute
    set by [_present_content]: [None] stands for both a missing
    attribute and the value [None], which its only reader
    ([hasattr(self, 'next_task') and self.next_task]) treats alike. *)
Record Task : Type := mkTask {
  task_state : TaskState;
  conversation_history : list Message;
  next_task : option string
}.

Definition set_is_streaming (v : bool) (self : Task) : Task :=
  let ts := task_state self in
  mkTask (mkTaskState v (current_streaming_content_index ts)
            (assistant_message_content ts) (user_message_content ts)
            (user_message_content_ready ts) (abort ts))
    (conversation_history self) (next_task self).

Definition set_index (v : nat) (self : Task) : Task :=
  let ts := task_state self in
  mkTask (mkTaskState (is_streaming ts) v
            (assistant_message_content ts) (user_message_content ts)
            (user_message_content_ready ts) (abort ts))
    (conversation_history self) (next_task self).

Definition set_assistant_content (v : list Block) (self : Task) : Task :=
  let ts := task_state self in
  mkTask (mkTaskState (is_streaming ts) (current_streaming_content_index ts)
            v (user_message_content ts)
            (user_message_content_ready ts) (abort ts))
    (conversation_history self) (next_task self).

Definition set_user_content (v : list ContentItem) (self : Task) : Task :=
  let ts := task_state self in
  mkTask (mkTaskState (is_streaming ts) (current_streaming_content_index ts)
            (assistant_message_content ts) v
            (user_message_content_ready ts) (abort ts))
    (conversation_history self) (next_task self).

Definition set_ready (v : bool) (self : Task) : Task :=
  let ts := task_state self in
  mkTask (mkTaskState (is_streaming ts) (current_streaming_content_index ts)
            (assistant_message_content ts) (user_message_content ts)
            v (abort ts))
    (conversation_history self) (next_task self).

Definition set_abort (v : bool) (self : Task) : Task :=
  let ts := task_state self in
  mkTask (mkTaskState (is_streaming ts) (current_streaming_content_index ts)
            (assistant_message_content ts) (user_message_content ts)
            (user_message_content_ready ts) v)
    (conversation_history self) (next_task self).

Definition set_history (v : list Message) (self : Task) : Task :=
  mkTask (task_state self) v (next_task self).

Definition set_next_task (v : option string) (self : Task) : Task :=
  mkTask (task_state self) (conversation_history self) v.

(** [Task.__init__]: a fresh [TaskState()] and an empty history. *)
Definition new_task : Task :=
  mkTask (mkTaskState false 0 [] [] false false) [] None.

(** How a method call ends: it returns a value, an exception leaves it,
    or it never returns.  The object and the world are as the call left
    them. *)
Inductive Res (FS A : Type) : Type :=
| Ok (a : A) (self : Task) (w : World FS)
| Exn (e : string) (self : Task) (w : World FS)
| Spin.

Arguments Ok {FS A}.
Arguments Exn {FS A}.
Arguments Spin {FS A}.

(** ** The methods of Task *)

Section TaskMethods.

Variable FS : Type.
Variable env : Env FS.

Definition bind {A B : Type} (r : Res FS A)
    (k : A -> Task -> World FS -> Res FS B) : Res FS B :=
  match r with
  | Ok a self w => k a self w
  | Exn e self w => Exn e self w
  | Spin => Spin
  end.

(** [input(...)]: the next line typed by the operator. *)
Definition read_input (w : World FS) : string * World FS :=
  let line := input env (n_inputs w) in
  (line, log (EvInput line)
           (mkWorld (fs w) (n_requests w) (S (n_inputs w)) (trace w))).

Definition quit_words : list string := ["quit"; "exit"; "q"].

(** The [attempt_completion] branch of [_present_content]; the prints
    (of [params.get('result', 'Task completed')] among others) leave no
    trace in the state. *)
Definition present_completion (self : Task) (w : World FS) : Res FS unit :=
  let '(line, w) := read_input w in
  let next_task := PyStr.strip line in
  let self :=
    if existsb (String.eqb (PyStr.lower next_task)) quit_words then
      set_abort true self
    else if PyStr.truthy next_task then
      set_abort true (set_next_task (Some next_task) self)
    else
      set_abort true self in
  Ok tt (set_ready true self) w.

(** The last part of [_present_content], [if not block.partial: ...];
    [recurse] is the call of the method by itself. *)
Definition advance (recurse : Task -> World FS -> Res FS unit)
    (block : Block) (self : Task) (w : World FS) : Res FS unit :=
  let ts := task_state self in
  let blocks := assistant_message_content ts in
  let index := current_streaming_content_index ts in
  if negb (partial block) then
    let self :=
      if index =? length blocks - 1 then set_ready true self else self in
    let self := set_index (index + 1) self in
    if index + 1 <? length blocks then recurse self w else Ok tt self w
  else Ok tt self w.

(** [_present_content].  The method calls itself with the index moved
    up by one and the list unchanged, so the recursion is on [rest],
    the blocks from the current index on
    ([assistant_message_content[current_streaming_content_index:]]).
    The tests on the index are those of the code. *)
Fixpoint present_from (rest : list Block) (self : Task) (w : World FS)
  : Res FS unit :=
  let ts := task_state self in
  let blocks := assistant_message_content ts in
  let index := current_streaming_content_index ts in
  if length blocks <=? index then
    Ok tt (if is_streaming ts then self else set_ready true self) w
  else
    match rest with
    | [] => Exn "list index out of range" self w
    | block :: rest' =>
        let w := log (EvVisit index block) w in
        match block with
        | ToolUseBlock name params false =>
            if (name =? "attempt_completion")%string then
              present_completion self w
            else
              match ToolExecutor.execute_tool (tools env) name params (fs w)
              with
              | (ToolExecutor.Returned result, fs') =>
                  let w :=
                    log (EvExecute block result)
                      (mkWorld fs' (n_requests w) (n_inputs w) (trace w)) in
                  let item :=
                    mkItem "text"
                      ("Tool " ++ name ++ " result:" ++ PyStr.nl ++ result) in
                  advance (present_from rest') block
                    (set_user_content
                       (user_message_content (task_state self) ++ [item])%list
                       self) w
              | (ToolExecutor.Raised e, fs') =>
                  Exn e self
                    (mkWorld fs' (n_requests w) (n_inputs w) (trace w))
              end
        | _ => advance (present_from rest') block self w
        end
    end.

Definition _present_content (self : Task) (w : World FS) : Res FS unit :=
  let ts := task_state self in
  present_from
    (skipn (current_streaming_content_index ts) (assistant_message_content ts))
    self w.

(** ["\n".join(item.get("text", "") for item in user_content if item.get("text"))] *)
Definition content_text (user_content : list ContentItem) : string :=
  PyStr.join PyStr.nl
    (map item_text
       (filter (fun item => PyStr.truthy (item_text item)) user_content)).

(** [chunk.type == "text" and chunk.text] *)
Definition text_delta (chunk : StreamChunk) : option string :=
  if (chunk_type chunk =? "text")%string then
    match chunk_text chunk with
    | Some text => if PyStr.truthy text then Some text else None
    | None => None
    end
  else None.

(** The body of [async for chunk in ...], chunk by chunk.  Returns the
    text received and whether the loop was left by [break]. *)
Fixpoint stream_loop (cs : list StreamChunk) (assistant_message : string)
    (self : Task) (w : World FS) : Res FS (string * bool) :=
  match cs with
  | [] => Ok (assistant_message, false) self w
  | chunk :: rest =>
      match text_delta chunk with
      | Some text =>
          let assistant_message := assistant_message ++ text in
          let self :=
            set_assistant_content
              (MessageParser.parse_assistant_message assistant_message)
              self in
          bind (_present_content self w) (fun _ self w =>
            if abort (task_state self)
            then Ok (assistant_message, true) self w
            else stream_loop rest assistant_message self w)
      | None => stream_loop rest assistant_message self w
      end
  end.

(** [_make_request]; the value returned is the [did_end] of
    [_task_loop]. *)
Definition _make_request (user_content : list ContentItem)
    (self : Task) (w : World FS) : Res FS bool :=
  if abort (task_state self) then Ok true self w
  else
    let self := set_index 0 self in
    let self := set_assistant_content [] self in
    let self := set_user_content [] self in
    let self := set_ready false self in
    let messages :=
      (conversation_history self
         ++ [mkMessage "user" (content_text user_content)])%list in
    let self := set_is_streaming true self in
    let reply := create_message_stream env (n_requests w) messages in
    let w :=
      log (EvRequest messages)
        (mkWorld (fs w) (S (n_requests w)) (n_inputs w) (trace w)) in
    let streamed :=
      bind (stream_loop (chunks reply) EmptyString self w)
        (fun '(assistant_message, broke) self w =>
           if broke then Ok assistant_message self w
           else match failure reply with
                | Some e => Exn e self w
                | None => Ok assistant_message self w
                end) in
    match streamed with
    | Exn e self w => Ok true (set_is_streaming false self) w
    | Spin => Spin
    | Ok assistant_message self w =>
        let self := set_is_streaming false self in
        if abort (task_state self) then Ok true self w
        else
          let self :=
            set_assistant_content
              (map finalize (assistant_message_content (task_state self)))
              self in
          bind (_present_content self w) (fun _ self w =>
            let ts := task_state self in
            if negb (user_message_content_ready ts) && negb (abort ts)
            then Spin
            else if abort ts then Ok true self w
            else if PyStr.truthy assistant_message then
              let self :=
                set_history
                  (conversation_history self
                     ++ [mkMessage "assistant" assistant_message])%list
                  self in
              let tool_blocks :=
                filter is_tool_use
                  (assistant_message_content (task_state self)) in
              match tool_blocks with
              | [] => Ok false self w
              | _ :: _ => Ok true self w
              end
            else Ok true self w)
    end.

Definition continue_prompt : string :=
  "Continue with the task or call attempt_completion.".

Definition text_item (s : string) : ContentItem := mkItem "text" s.

(** The [while] loop of [_task_loop], for at most [fuel] requests;
    [None] when the loop is still running after that many. *)
Fixpoint task_loop (fuel : nat) (user_content : list ContentItem)
    (self : Task) (w : World FS) : option (Res FS unit) :=
  if abort (task_state self) then Some (Ok tt self w)
  else
    match fuel with
    | O => None
    | S fuel' =>
        match _make_request user_content self w with
        | Ok did_end self w =>
            if did_end then
              match next_task self with
              | Some next_task_content =>
                  if PyStr.truthy next_task_content then
                    let self := set_next_task None self in
                    let self := set_abort false self in
                    task_loop fuel' [text_item next_task_content] self w
                  else Some (Ok tt self w)
              | None => Some (Ok tt self w)
              end
            else task_loop fuel' [text_item continue_prompt] self w
        | Exn e self w => Some (Exn e self w)
        | Spin => Some Spin
        end
    end.

Definition _task_loop (fuel : nat) (initial_content : string)
    (self : Task) (w : World FS) : option (Res FS unit) :=
  task_loop fuel [text_item initial_content] self w.

Definition start_task (fuel : nat) (initial_task : string)
    (self : Task) (w : World FS) : option (Res FS unit) :=
  _task_loop fuel initial_task
    (set_history [mkMessage "user" initial_task] self) w.

End TaskMethods.

Arguments bind {FS A B}.
Arguments read_input {FS}.
Arguments present_completion {FS}.
Arguments advance {FS}.
Arguments present_from {FS}.
Arguments _present_content {FS}.
Arguments stream_loop {FS}.
Arguments _make_request {FS}.
Arguments task_loop {FS}.
Arguments _task_loop {FS}.
Arguments start_task {FS}.

(** ** Vocabulary of the properties *)

(** The finalized segments of a parse result: those not marked partial. *)
Definition finalized (blocks : list Block) : list Block :=
  filter (fun b => negb (partial b)) blocks.

Definition list_prefix {A : Type} (l1 l2 : list A) : Prop :=
  exists tl, l2 = (l1 ++ tl)%list.

Definition strict_prefix (b1 b2 : string) : Prop :=
  exists ext, ext <> EmptyString /\ b2 = b1 ++ ext.

(** [b2] introduces no new complete tool tag: every complete tool span
    of [b2] is one of [b1]. *)
Definition no_new_tool_tags (b1 b2 : string) : Prop :=
  forall m,
    In m (Re.finditer Re.tool_pattern b2) ->
    In m (Re.finditer Re.tool_pattern b1).

Definition nonpartial (b : Block) : Prop := partial b = false.

(** A segment sequence without its last segment when that one is text. *)
Definition without_trailing_text (blocks : list Block) : list Block :=
  match rev blocks with
  | TextBlock _ _ :: front => rev front
  | _ => blocks
  end.

(** The indices read by [_present_content], in the order of the trace. *)
Fixpoint visits (tr : list Event) : list nat :=
  match tr with
  | [] => []
  | EvVisit i _ :: tr' => i :: visits tr'
  | _ :: tr' => visits tr'
  end.

(** The blocks read by [_present_content], in the order of the trace. *)
Fixpoint visited (tr : list Event) : list Block :=
  match tr with
  | [] => []
  | EvVisit _ b :: tr' => b :: visited tr'
  | _ :: tr' => visited tr'
  end.

(** The blocks handed to [execute_tool], in the order of the trace. *)
Fixpoint executed (tr : list Event) : list Block :=
  match tr with
  | [] => []
  | EvExecute b _ :: tr' => b :: executed tr'
  | _ :: tr' => executed tr'
  end.

(** The message lists sent to the backend, in the order of the trace. *)
Fixpoint requests (tr : list Event) : list (list Message) :=
  match tr with
  | [] => []
  | EvRequest ms :: tr' => ms :: requests tr'
  | _ :: tr' => requests tr'
  end.

(** A block that [_present_content] hands to [execute_tool]. *)
Definition is_dispatched (b : Block) : bool :=
  match b with
  | ToolUseBlock name _ false => negb (name =? "attempt_completion")%string
  | _ => false
  end.

(** An event of presentation: a block is read or a tool is run. *)
Definition is_presentation (e : Event) : bool :=
  match e with
  | EvVisit _ _ | EvExecute _ _ => true
  | _ => false
  end.

(** The text of a reply: its text deltas, concatenated. *)
Fixpoint reply_text (cs : list StreamChunk) : string :=
  match cs with
  | [] => EmptyString
  | chunk :: rest =>
      match text_delta chunk with
      | Some text => text ++ reply_text rest
      | None => reply_text rest
      end
  end.

(** What the trace of a turn looks like while no completion tool has
    been reached and the cursor is at [index]: the indices [0 .. index-1]
    were read, in this order, none of the blocks read is a completion
    call, and the tools run are the dispatched blocks among those read. *)
Definition open_trace (index : nat) (acc : list Event) : Prop :=
  visits acc = seq 0 index
  /\ Forall (fun b => is_completion b = false) (visited acc)
  /\ executed acc = filter is_dispatched (visited acc).

(** The trace of a turn since its request, for a cursor at [index]:
    open, or closed by the read of a completion call at [index] and the
    operator's answer when the turn was aborted. *)
Definition turn_trace (index : nat) (aborted : bool) (acc : list Event)
  : Prop :=
  if aborted then
    exists front b line,
      acc = (front ++ [EvVisit index b; EvInput line])%list
      /\ is_completion b = true
      /\ open_trace index front
  else open_trace index acc.

(** What a call of [_present_content] starts from: the task is not
    aborted, no block is marked partial, and the trace of the turn is
    open at the cursor. *)
Definition present_pre {FS : Type} (base acc : list Event)
    (self : Task) (w : World FS) : Prop :=
  abort (task_state self) = false
  /\ Forall nonpartial (assistant_message_content (task_state self))
  /\ trace w = (base ++ acc)%list
  /\ open_trace (current_streaming_content_index (task_state self)) acc.

(** What a call of [_present_content] on [self] and [w] ends with. *)
Definition present_post {FS : Type} (base : list Event)
    (self : Task) (w : World FS) (r : Res FS unit) : Prop :=
  exists self' w' acc',
    r = Ok tt self' w'
    /\ trace w' = (base ++ acc')%list
    /\ turn_trace (current_streaming_content_index (task_state self'))
         (abort (task_state self')) acc'
    /\ assistant_message_content (task_state self')
       = assistant_message_content (task_state self)
    /\ is_streaming (task_state self') = is_streaming (task_state self)
    /\ conversation_history self' = conversation_history self
    /\ n_requests w' = n_requests w
    /\ (is_streaming (task_state self) = false ->
        user_message_content_ready (task_state self') = true)
    /\ (abort (task_state self') = false -> next_task self' = next_task self)
    /\ (Forall (fun b => is_tool_use b = false)
          (assistant_message_content (task_state self)) ->
        abort (task_state self') = false
        /\ user_message_content (task_state self')
           = user_message_content (task_state self)).

(** The messages of the request that [_make_request] sends. *)
Definition request_messages (user_content : list ContentItem) (self : Task)
  : list Message :=
  (conversation_history self
     ++ [mkMessage "user" (content_text user_content)])%list.

(** ** Scenarios *)

(** Small environments on which the statements below are run: a file
    system that is never looked at, a backend that answers the first
    request with one text delta and has nothing to say afterwards, and an
    operator who types the same line at every prompt. *)
Module Scenario.

Definition tools : ToolExecutor.Tools unit :=
  ToolExecutor.mkTools unit
    (fun path fs => (ToolExecutor.Returned ("contents of " ++ path), fs))
    (fun path _ fs => (ToolExecutor.Raised "Permission denied", fs))
    (fun command fs => (ToolExecutor.Returned "Exit code: 0", fs))
    (fun path fs =>
       (ToolExecutor.Returned ("Directory " ++ path ++ " does not exist"),
        fs)).

Definition text_chunk (s : string) : StreamChunk :=
  mkChunk "text" (Some s) None None.

Definition usage_chunk : StreamChunk :=
  mkChunk "usage" None (Some 10) (Some 20).

Definition says (s : string) : Reply :=
  mkReply [text_chunk s; usage_chunk] None.

Definition silence : Reply := mkReply [usage_chunk] None.

Definition backend (first : string) : nat -> list Message -> Reply :=
  fun n _ => match n with O => says first | S _ => silence end.

Definition env (first line : string) : Env unit :=
  mkEnv unit tools (backend first) (fun _ => line).

Definition world0 : World unit := mkWorld tt 0 0 [].

(** The model answers with plain text. *)
Definition talker : Env unit := env "hello" "quit".

(** The model calls one tool. *)
Definition reader : Env unit :=
  env "<read_file><path>a.txt</path></read_file>" "quit".

(** The model reports completion and the operator types a next task. *)
Definition finisher : Env unit :=
  env "<attempt_completion><result>done</result></attempt_completion>" "t2".

(** A task as [start_task] hands it to [_task_loop]. *)
Definition started (initial_task : string) : Task :=
  set_history [mkMessage "user" initial_task] new_task.

Definition completion_call : Block :=
  ToolUseBlock "attempt_completion" [("result", "done")] false.

Definition read_call : Block :=
  ToolUseBlock "read_file" [("path", "a.txt")] false.

(** The task and the world after the first turn of [finisher]. *)
Definition finisher_turn : Res unit bool :=
  _make_request finisher [text_item "t1"] (started "t1") world0.

Definition finisher_task : Task :=
  Eval vm_compute in
    match finisher_turn with
    | Ok _ self _ => self
    | _ => new_task
    end.

Definition finisher_world : World unit :=
  Eval vm_compute in
    match finisher_turn with
    | Ok _ _ w => w
    | _ => world0
    end.

End Scenario.

(** ** Vocabulary of further properties *)

Definition span_block (m : Re.Match) : Block :=
  ToolUseBlock (Re.group1 m)
    (MessageParser.parse_params (PyStr.strip (Re.group2 m))) false.

Fixpoint all_chars (f : ascii -> bool) (s : string) : bool :=
  match s with
  | EmptyString => true
  | String c s' => f c && all_chars f s'
  end.

Definition head_is_text (blocks : list Block) : bool :=
  match blocks with
  | TextBlock _ _ :: _ => true
  | _ => false
  end.

Fixpoint no_adjacent_text (blocks : list Block) : bool :=
  match blocks with
  | [] => true
  | b :: rest =>
      negb (negb (is_tool_use b) && head_is_text rest) && no_adjacent_text rest
  end.

Definition text_trimmed (b : Block) : Prop :=
  match b with
  | TextBlock c _ => PyStr.truthy c = true /\ PyStr.strip c = c
  | ToolUseBlock _ _ _ => True
  end.

Definition known_tool (b : Block) : Prop :=
  match b with
  | TextBlock _ _ => True
  | ToolUseBlock name _ _ => In name Re.tool_names
  end.

Definition param_ok (kv : string * string) : Prop :=
  PyStr.truthy (fst kv) = true
  /\ all_chars PyStr.isword (fst kv) = true
  /\ PyStr.strip (snd kv) = snd kv.

(** One assignment of the loop over the parameter tags. *)
Definition param_step (params : PyDict.t) (param_match : Re.Match)
  : PyDict.t :=
  PyDict.set params (Re.group1 param_match)
    (PyStr.strip (Re.group2 param_match)).

(** The entry that [_present_content] appends for a tool result. *)
Definition result_item (name result : string) : ContentItem :=
  mkItem "text" ("Tool " ++ name ++ " result:" ++ PyStr.nl ++ result).

(** The result entries of the tools run, in the order of the trace. *)
Fixpoint results (tr : list Event) : list ContentItem :=
  match tr with
  | [] => []
  | EvExecute (ToolUseBlock name _ _) result :: tr' =>
      result_item name result :: results tr'
  | _ :: tr' => results tr'
  end.

(** The lines typed by the operator, in the order of the trace. *)
Fixpoint inputs (tr : list Event) : list string :=
  match tr with
  | [] => []
  | EvInput line :: tr' => line :: inputs tr'
  | _ :: tr' => inputs tr'
  end.

(** What the answer to the completion prompt makes of [next_task]. *)
Definition handoff (line : string) (old : option string) : option string :=
  let answer := PyStr.strip line in
  if existsb (String.eqb (PyStr.lower answer)) quit_words then old
  else if PyStr.truthy answer then Some answer
  else old.

(** A block that the parser returns for some buffer. *)
Definition parsed (b : Block) : Prop :=
  exists buffer, In b (MessageParser.parse_assistant_message buffer).

(** The operator's part in a call that took the task from [self], [w] to
    [self'], [w'] with the events [delta]: one prompt, answered, when the
    call aborted the task, and none otherwise, in which case the cursor
    is past the last block. *)
Definition prompt_outcome {FS : Type} (env : Env FS) (self : Task)
    (w : World FS) (self' : Task) (w' : World FS) (delta : list Event)
  : Prop :=
  if abort (task_state self') then
    n_inputs w' = S (n_inputs w)
    /\ inputs delta = [input env (n_inputs w)]
    /\ next_task self' = handoff (input env (n_inputs w)) (next_task self)
  else
    n_inputs w' = n_inputs w
    /\ inputs delta = []
    /\ next_task self' = next_task self
    /\ length (assistant_message_content (task_state self'))
       <= current_streaming_content_index (task_state self').

(** What a call of [_present_content] does to the task and the world. *)
Definition presented {FS : Type} (env : Env FS) (self : Task) (w : World FS)
    (r : Res FS unit) : Prop :=
  exists self' w' delta,
    r = Ok tt self' w'
    /\ trace w' = (trace w ++ delta)%list
    /\ requests delta = []
    /\ n_requests w' = n_requests w
    /\ conversation_history self' = conversation_history self
    /\ assistant_message_content (task_state self')
       = assistant_message_content (task_state self)
    /\ is_streaming (task_state self') = is_streaming (task_state self)
    /\ user_message_content (task_state self')
       = (user_message_content (task_state self) ++ results delta)%list
    /\ Forall (fun b => In b (assistant_message_content (task_state self)))
         (visited delta)
    /\ prompt_outcome env self w self' w' delta.

(** What the loop over the stream does to the task and the world. *)
Definition streamed {FS : Type} (env : Env FS) (self : Task) (w : World FS)
    (r : Res FS (string * bool)) : Prop :=
  exists msg' broke self' w' delta,
    r = Ok (msg', broke) self' w'
    /\ trace w' = (trace w ++ delta)%list
    /\ requests delta = []
    /\ n_requests w' = n_requests w
    /\ conversation_history self' = conversation_history self
    /\ user_message_content (task_state self')
       = (user_message_content (task_state self) ++ results delta)%list
    /\ Forall parsed (visited delta)
    /\ prompt_outcome env self w self' w' delta.

(** The stream of a reply ended without an exception. *)
Definition succeeded (reply : Reply) : bool :=
  match failure reply with
  | None => true
  | Some _ => false
  end.

(** A turn ran to its end: it was not aborted and the backend did not
    fail. *)
Definition completed (reply : Reply) (self' : Task) : bool :=
  negb (abort (task_state self')) && succeeded reply.

(** Where the user content of a request can come from: the content the
    loop was started with, the fixed continuation prompt, or a line typed
    by the operator, stripped. *)
Definition user_content_source (initial : string) (typed : list string)
    (c : string) : Prop :=
  c = initial
  \/ c = continue_prompt
  \/ exists line, In line typed /\ c = PyStr.strip line.

(** A request of a task loop started with the history [history] and the
    content [initial]: the history, the replies of the assistant so far,
    and one user message. *)
Definition sent_by (history : list Message) (initial : string)
    (typed : list string) (messages : list Message) : Prop :=
  exists replies c,
    messages
    = (history ++ map (mkMessage "assistant") replies
         ++ [mkMessage "user" c])%list
    /\ user_content_source initial typed c.

(** The tools that [execute_tool] runs a tool body for. *)
Definition dispatched_tools : list string :=
  ["read_file"; "write_to_file"; "execute_command"; "list_files"].

(** A block fit to be run: a finalized invocation of one of the four
    tools with a body, as the parser returns it for some buffer. *)
Definition runnable (b : Block) : Prop :=
  parsed b
  /\ exists name params,
       b = ToolUseBlock name params false /\ In name dispatched_tools.



(** ** Further scenarios *)

Module Runs.

(** The backend fails after a first delta. *)
Definition broken : Env unit :=
  mkEnv unit Scenario.tools
    (fun _ _ =>
       mkReply [Scenario.text_chunk "I will"] (Some "connection reset"))
    (fun _ => "quit").

(** The end of the task of [Scenario.finisher]. *)
Definition finisher_result : Res unit unit :=
  Eval vm_compute in
    match start_task Scenario.finisher 5 "t1" new_task Scenario.world0 with
    | Some r => r
    | None => Spin
    end.

(** The two parameter tags of ["<path>a</path><path>b</path>"]. *)
Definition path_a : Re.Match := Re.mkMatch 0 14 "path" "a".

Definition path_b : Re.Match := Re.mkMatch 14 28 "path" "b".

End Runs.


(** * Properties *)

(** ** Strings *)

Section StringFacts.

Lemma append_empty_r (s : string) : s ++ EmptyString = s.
Proof. induction s as [|c s IH]; simpl; [reflexivity | now rewrite IH]. Qed.

Lemma append_assoc (a b c : string) : (a ++ b) ++ c = a ++ (b ++ c).
Proof. induction a as [|x a IH]; simpl; [reflexivity | now rewrite IH]. Qed.

Lemma length_append (a b : string) :
  String.length (a ++ b) = String.length a + String.length b.
Proof. induction a as [|x a IH]; simpl; [reflexivity | now rewrite IH]. Qed.

Lemma substring_append (s ext : string) :
  forall a n, a + n <= String.length s ->
    substring a n (s ++ ext) = substring a n s.
Proof.
  induction s as [|c s IH]; intros a n Hle; simpl in Hle.
  - assert (a = 0) by lia. assert (n = 0) by lia. subst.
    simpl. now destruct ext.
  - destruct a as [|a]; simpl.
    + destruct n as [|n]; [reflexivity|].
      f_equal. apply (IH 0 n). lia.
    + apply IH. lia.
Qed.

Lemma prefix_length (a s : string) :
  String.prefix a s = true -> String.length a <= String.length s.
Proof.
  revert s. induction a as [|x a IH]; intros s H; simpl; [lia|].
  destruct s as [|y s]; simpl in H; [discriminate|].
  destruct (ascii_dec x y); [|discriminate].
  apply IH in H. simpl. lia.
Qed.

Lemma prefix_append (a s ext : string) :
  String.prefix a s = true -> String.prefix a (s ++ ext) = true.
Proof.
  revert s. induction a as [|x a IH]; intros s H;
    [now destruct (s ++ ext)|].
  destruct s as [|y s]; simpl in H; [discriminate|].
  simpl. destruct (ascii_dec x y); [|discriminate]. now apply IH.
Qed.

Lemma drop_append (n : nat) (s ext : string) :
  n <= String.length s -> PyStr.drop n (s ++ ext) = PyStr.drop n s ++ ext.
Proof.
  revert s. induction n as [|n IH]; intros s H; [reflexivity|].
  destruct s as [|c s]; simpl in H; [lia|].
  simpl. apply IH. lia.
Qed.

End StringFacts.

(** ** The parser *)

Section ParserFacts.

Lemma finditer_from_start (p : Re.pattern) (s : string) :
  forall pos skip m,
    In m (Re.finditer_from p s pos skip) ->
    pos <= Re.m_start m /\ Re.m_start m < pos + String.length s.
Proof.
  induction s as [|c s IH]; intros pos skip m Hin; simpl in Hin; [easy|].
  destruct skip as [|k].
  - destruct (p (String c s)) as [[[g1 g2] len]|].
    + destruct Hin as [<- | Hin]; simpl; [lia|].
      apply IH in Hin. lia.
    + apply IH in Hin. simpl. lia.
  - apply IH in Hin. simpl. lia.
Qed.

Lemma parse_step_append (b ext : string) (st : list Block * nat)
    (m : Re.Match) :
  Re.m_start m <= String.length b ->
  MessageParser.parse_step (b ++ ext) st m = MessageParser.parse_step b st m.
Proof.
  intros Hle. destruct st as [blocks last_end].
  unfold MessageParser.parse_step, PyStr.slice.
  destruct (last_end <? Re.m_start m) eqn:E; [|reflexivity].
  apply Nat.ltb_lt in E.
  rewrite substring_append by lia. reflexivity.
Qed.

Lemma parse_fold_append (b ext : string) (ms : list Re.Match) :
  forall st,
    Forall (fun m => Re.m_start m <= String.length b) ms ->
    fold_left (MessageParser.parse_step (b ++ ext)) ms st
    = fold_left (MessageParser.parse_step b) ms st.
Proof.
  induction ms as [|m ms IH]; intros st Hall; [reflexivity|].
  inversion Hall as [|? ? Hm Hms]; subst. simpl.
  rewrite parse_step_append by exact Hm. now apply IH.
Qed.

(** After the loop the block list is the initial one (no match) or
    ends with the tool invocation of the last match. *)
Lemma parse_fold_shape (message : string) (ms : list Re.Match) :
  forall st,
    (ms = [] /\ fold_left (MessageParser.parse_step message) ms st = st)
    \/ exists front name params,
         fst (fold_left (MessageParser.parse_step message) ms st)
         = (front ++ [ToolUseBlock name params false])%list.
Proof.
  induction ms as [|m ms IH]; intros st; [left; easy|].
  right. simpl.
  destruct (IH (MessageParser.parse_step message st m))
    as [[-> ->] | Hex]; [|exact Hex].
  destruct st as [blocks last_end]. unfold MessageParser.parse_step.
  eexists _, _, _. simpl. reflexivity.
Qed.

Lemma parse_finish_shape (message : string) (blocks : list Block)
    (last_end : nat) :
  exists tl,
    MessageParser.parse_finish message (blocks, last_end)
    = (blocks ++ tl)%list
    /\ (tl = [] \/ exists c, tl = [TextBlock c false]).
Proof.
  unfold MessageParser.parse_finish.
  destruct (last_end <? String.length message).
  - destruct (PyStr.truthy (PyStr.strip (PyStr.drop last_end message))).
    + exists [TextBlock (PyStr.strip (PyStr.drop last_end message)) false].
      split; [|right; eauto].
      destruct blocks; reflexivity.
    + destruct blocks as [|b blocks].
      * destruct (PyStr.truthy (PyStr.strip message));
          eexists; split; simpl; eauto.
      * exists []. rewrite app_nil_r. auto.
  - destruct blocks as [|b blocks].
    + destruct (PyStr.truthy (PyStr.strip message));
        eexists; split; simpl; eauto.
    + exists []. rewrite app_nil_r. auto.
Qed.

Lemma parse_step_nonpartial (message : string) (st : list Block * nat)
    (m : Re.Match) :
  Forall nonpartial (fst st) ->
  Forall nonpartial (fst (MessageParser.parse_step message st m)).
Proof.
  destruct st as [blocks last_end]. simpl. intros H.
  unfold MessageParser.parse_step.
  destruct (last_end <? Re.m_start m);
    [destruct (PyStr.truthy _)|]; simpl;
    repeat (apply Forall_app; split); auto; repeat constructor.
Qed.

Lemma parse_fold_nonpartial (message : string) (ms : list Re.Match) :
  forall st,
    Forall nonpartial (fst st) ->
    Forall nonpartial
      (fst (fold_left (MessageParser.parse_step message) ms st)).
Proof.
  induction ms as [|m ms IH]; intros st H; [exact H|].
  simpl. apply IH. now apply parse_step_nonpartial.
Qed.

Lemma parse_nonpartial (message : string) :
  Forall nonpartial (MessageParser.parse_assistant_message message).
Proof.
  unfold MessageParser.parse_assistant_message, MessageParser.parse_loop.
  pose proof (parse_fold_nonpartial message
                (Re.finditer Re.tool_pattern message) ([], 0)
                (Forall_nil _)) as H.
  destruct (fold_left _ _ _) as [blocks last_end]. simpl in H.
  destruct (parse_finish_shape message blocks last_end)
    as [tl [-> Htl]].
  apply Forall_app. split; [exact H|].
  destruct Htl as [-> | [c ->]]; repeat constructor.
Qed.

Lemma finalized_nonpartial (blocks : list Block) :
  Forall nonpartial blocks -> finalized blocks = blocks.
Proof.
  induction 1 as [|b l Hb _ IH]; [reflexivity|].
  unfold finalized in *. simpl. rewrite Hb. simpl. now rewrite IH.
Qed.

Lemma finalize_nonpartial (blocks : list Block) :
  Forall nonpartial (map finalize blocks).
Proof.
  induction blocks as [|b l IH]; constructor; [now destruct b | exact IH].
Qed.

Lemma finalize_id (blocks : list Block) :
  Forall nonpartial blocks -> map finalize blocks = blocks.
Proof.
  induction 1 as [|b l Hb _ IH]; [reflexivity|].
  simpl. rewrite IH. f_equal.
  destruct b; simpl in *; unfold nonpartial in Hb; simpl in Hb; now subst.
Qed.

End ParserFacts.

(** ** Tool spans of a growing buffer *)

Section GrowingBuffer.

Lemma prefix_append_eq (a s ext : string) :
  String.length a <= String.length s ->
  String.prefix a (s ++ ext) = String.prefix a s.
Proof.
  revert s. induction a as [|x a IH]; intros s H.
  - destruct (s ++ ext); destruct s; reflexivity.
  - destruct s as [|y s]; simpl in H; [lia|].
    simpl. destruct (ascii_dec x y); [|reflexivity]. apply IH. lia.
Qed.

Lemma find_bound (sub s : string) :
  forall k, PyStr.find sub s = Some k ->
            k + String.length sub <= String.length s.
Proof.
  induction s as [|c s IH]; intros k H.
  - cbn [PyStr.find] in H.
    destruct (String.prefix sub EmptyString) eqn:E; [|discriminate].
    inversion H; subst. apply prefix_length in E. simpl in *. lia.
  - cbn [PyStr.find] in H.
    destruct (String.prefix sub (String c s)) eqn:E.
    + inversion H; subst. apply prefix_length in E. simpl in *. lia.
    + destruct (PyStr.find sub s) as [k'|] eqn:F; [|discriminate].
      inversion H; subst. specialize (IH k' eq_refl). simpl. lia.
Qed.

Lemma find_append_eq (sub s ext : string) :
  forall k, PyStr.find sub s = Some k -> PyStr.find sub (s ++ ext) = Some k.
Proof.
  induction s as [|c s IH]; intros k H.
  - cbn [PyStr.find] in H.
    destruct (String.prefix sub EmptyString) eqn:E; [|discriminate].
    inversion H; subst. destruct sub; [|discriminate].
    now destruct ext.
  - pose proof (find_bound _ _ _ H) as Hb.
    change (String c s ++ ext) with (String c (s ++ ext)).
    cbn [PyStr.find] in *.
    change (String c (s ++ ext)) with (String c s ++ ext).
    rewrite prefix_append_eq by lia.
    destruct (String.prefix sub (String c s)); [exact H|].
    destruct (PyStr.find sub s) as [k'|] eqn:F; [|discriminate].
    now rewrite (IH k' eq_refl).
Qed.

Lemma find_append_inv (sub s ext : string) :
  forall k, PyStr.find sub (s ++ ext) = Some k ->
            k + String.length sub <= String.length s ->
            PyStr.find sub s = Some k.
Proof.
  induction s as [|c s IH]; intros k H Hb.
  - simpl in Hb. assert (k = 0) by lia. subst k.
    destruct sub; [reflexivity | simpl in Hb; lia].
  - change (String c s ++ ext) with (String c (s ++ ext)) in H.
    cbn [PyStr.find] in *.
    change (String c (s ++ ext)) with (String c s ++ ext) in H.
    rewrite prefix_append_eq in H by lia.
    destruct (String.prefix sub (String c s)); [exact H|].
    destruct (PyStr.find sub (s ++ ext)) as [k'|] eqn:F; [|discriminate].
    inversion H; subst. simpl in Hb.
    rewrite (IH k' eq_refl) by lia. reflexivity.
Qed.

Lemma length_drop (n : nat) (s : string) :
  String.length (PyStr.drop n s) = String.length s - n.
Proof.
  revert s. induction n as [|n IH]; intros s; simpl; [lia|].
  destruct s as [|c s]; simpl; [reflexivity | apply IH].
Qed.

Lemma prefix_split (a s : string) :
  String.prefix a s = true -> s = a ++ PyStr.drop (String.length a) s.
Proof.
  revert s. induction a as [|x a IH]; intros s H; [reflexivity|].
  destruct s as [|y s]; simpl in H; [discriminate|].
  destruct (ascii_dec x y) as [->|]; [|discriminate].
  simpl. f_equal. now apply IH.
Qed.

Lemma match_tag_length (name s g2 : string) (len : nat) :
  Re.match_tag name s = Some (g2, len) ->
  0 < len /\ len <= String.length s.
Proof.
  unfold Re.match_tag.
  destruct (String.prefix ("<" ++ name ++ ">") s) eqn:E; [|discriminate].
  destruct (PyStr.find _ _) as [k|] eqn:F; [|discriminate].
  intros H. inversion H; subst.
  apply prefix_length in E. apply find_bound in F.
  rewrite length_drop in F. simpl in *. lia.
Qed.

Lemma match_tag_append_eq (name s ext : string) (r : string * nat) :
  Re.match_tag name s = Some r -> Re.match_tag name (s ++ ext) = Some r.
Proof.
  unfold Re.match_tag.
  destruct (String.prefix ("<" ++ name ++ ">") s) eqn:E; [|discriminate].
  rewrite (prefix_append _ _ _ E).
  rewrite drop_append by now apply prefix_length.
  destruct (PyStr.find _ (PyStr.drop _ s)) as [k|] eqn:F; [|discriminate].
  rewrite (find_append_eq _ _ _ _ F).
  apply find_bound in F.
  rewrite substring_append by lia. auto.
Qed.

Lemma match_tag_append_inv (name s ext g2 : string) (len : nat) :
  Re.match_tag name (s ++ ext) = Some (g2, len) ->
  len <= String.length s ->
  Re.match_tag name s = Some (g2, len).
Proof.
  unfold Re.match_tag.
  generalize ("<" ++ name ++ ">") ("</" ++ name ++ ">").
  intros opening closing.
  destruct (String.prefix opening (s ++ ext)) eqn:E; [|discriminate].
  destruct (PyStr.find _ _) as [k|] eqn:F; [|discriminate].
  intros H Hlen.
  assert (Hg : g2 = substring 0 k
                      (PyStr.drop (String.length opening) (s ++ ext)))
    by congruence.
  assert (Hl : len = String.length opening + k + String.length closing)
    by congruence.
  clear H. subst len.
  assert (Hopen : String.length opening <= String.length s) by lia.
  rewrite prefix_append_eq in E by exact Hopen. rewrite E.
  rewrite drop_append in F, Hg by exact Hopen.
  assert (Hk : k + String.length closing
               <= String.length (PyStr.drop (String.length opening) s))
    by (rewrite length_drop; lia).
  rewrite (find_append_inv _ _ _ _ F Hk).
  rewrite substring_append in Hg by lia. now subst g2.
Qed.

Lemma match_alt_name (names : list string) (s n g2 : string) (len : nat) :
  Re.match_alt names s = Some (n, g2, len) ->
  In n names /\ Re.match_tag n s = Some (g2, len).
Proof.
  induction names as [|x names IH]; simpl; [discriminate|].
  destruct (Re.match_tag x s) as [[g len']|] eqn:E.
  - intros H. inversion H; subst. auto.
  - intros H. apply IH in H. tauto.
Qed.

(** The opening tags of the tools exclude one another, so the
    alternation finds the one tool whose tag matches. *)
Lemma tool_pattern_unique (s n g2 : string) (len : nat) :
  In n Re.tool_names ->
  Re.match_tag n s = Some (g2, len) ->
  Re.tool_pattern s = Some (n, g2, len).
Proof.
  intros Hin H.
  assert (Hp : String.prefix ("<" ++ n ++ ">") s = true).
  { unfold Re.match_tag in H.
    destruct (String.prefix ("<" ++ n ++ ">") s); [reflexivity|discriminate]. }
  apply prefix_split in Hp.
  set (s' := PyStr.drop (String.length ("<" ++ n ++ ">")) s) in Hp.
  clearbody s'. subst s.
  unfold Re.tool_pattern, Re.tool_names, Re.match_alt.
  simpl in Hin.
  destruct Hin as [<-|[<-|[<-|[<-|[<-|[]]]]]];
    repeat match goal with
    | |- context [Re.match_tag ?x ?t] =>
        lazymatch goal with
        | H0 : Re.match_tag x t = Some _ |- _ => rewrite H0; reflexivity
        | _ => change (Re.match_tag x t) with (@None (string * nat))
        end
    end.
Qed.

Lemma tool_pattern_length (s n g2 : string) (len : nat) :
  Re.tool_pattern s = Some (n, g2, len) ->
  0 < len /\ len <= String.length s.
Proof.
  intros H. apply match_alt_name in H. destruct H as [_ H].
  now apply match_tag_length in H.
Qed.

Lemma tool_pattern_append_eq (s ext : string) (r : string * string * nat) :
  Re.tool_pattern s = Some r -> Re.tool_pattern (s ++ ext) = Some r.
Proof.
  destruct r as [[n g2] len]. intros H.
  apply match_alt_name in H. destruct H as [Hin H].
  apply tool_pattern_unique; [exact Hin|].
  now apply match_tag_append_eq.
Qed.

Lemma tool_pattern_append_inv (s ext n g2 : string) (len : nat) :
  Re.tool_pattern (s ++ ext) = Some (n, g2, len) ->
  len <= String.length s ->
  Re.tool_pattern s = Some (n, g2, len).
Proof.
  intros H Hlen. apply match_alt_name in H. destruct H as [Hin H].
  apply tool_pattern_unique; [exact Hin|].
  now apply match_tag_append_inv with ext.
Qed.

Lemma finditer_from_end (s : string) :
  forall pos skip m,
    In m (Re.finditer_from Re.tool_pattern s pos skip) ->
    pos < Re.m_end m /\ Re.m_end m <= pos + String.length s.
Proof.
  induction s as [|c s IH]; intros pos skip m Hin; simpl in Hin; [easy|].
  destruct skip as [|k].
  - destruct (Re.tool_pattern (String c s)) as [[[g1 g2] len]|] eqn:E.
    + apply tool_pattern_length in E.
      destruct Hin as [<- | Hin]; simpl in *; [lia|].
      apply IH in Hin. lia.
    + apply IH in Hin. simpl. lia.
  - apply IH in Hin. simpl. lia.
Qed.

(** The spans of a longer buffer that end within the shorter one are
    the spans of the shorter one. *)
Lemma finditer_from_prefix (s ext : string) :
  forall pos skip,
    (forall m, In m (Re.finditer_from Re.tool_pattern (s ++ ext) pos skip) ->
               Re.m_end m <= pos + String.length s) ->
    Re.finditer_from Re.tool_pattern (s ++ ext) pos skip
    = Re.finditer_from Re.tool_pattern s pos skip.
Proof.
  induction s as [|c s IH]; intros pos skip Hall.
  - simpl in *.
    destruct (Re.finditer_from Re.tool_pattern ext pos skip) as [|m l] eqn:E;
      [reflexivity|].
    exfalso.
    assert (Hin : In m (Re.finditer_from Re.tool_pattern ext pos skip))
      by (rewrite E; now left).
    apply finditer_from_end in Hin. specialize (Hall m (or_introl eq_refl)).
    lia.
  - change (String c s ++ ext) with (String c (s ++ ext)) in *.
    cbn [Re.finditer_from] in *.
    change (String c (s ++ ext)) with (String c s ++ ext) in *.
    destruct skip as [|k].
    + destruct (Re.tool_pattern (String c s ++ ext))
        as [[[g1 g2] len]|] eqn:E.
      * assert (Hlen : len <= String.length (String c s)).
        { specialize (Hall _ (or_introl eq_refl)). simpl in Hall.
          simpl. lia. }
        rewrite (tool_pattern_append_inv _ _ _ _ _ E Hlen).
        f_equal. apply IH. intros m Hin.
        specialize (Hall m (or_intror Hin)). simpl in Hall. lia.
      * destruct (Re.tool_pattern (String c s)) as [r|] eqn:F.
        -- rewrite (tool_pattern_append_eq _ ext _ F) in E. discriminate.
        -- apply IH. intros m Hin. specialize (Hall m Hin).
           simpl in Hall. lia.
    + apply IH. intros m Hin. specialize (Hall m Hin). simpl in Hall. lia.
Qed.

Lemma no_new_tags_same_spans (b1 b2 : string) :
  strict_prefix b1 b2 ->
  (forall m, In m (Re.finditer Re.tool_pattern b2) ->
             In m (Re.finditer Re.tool_pattern b1)) ->
  Re.finditer Re.tool_pattern b2 = Re.finditer Re.tool_pattern b1.
Proof.
  intros [ext [_ ->]] Hnew. unfold Re.finditer in *.
  apply finditer_from_prefix. intros m Hin.
  apply Hnew in Hin. now apply finditer_from_end in Hin.
Qed.

Lemma finditer_from_append_nil (s ext : string) :
  Re.finditer Re.tool_pattern (s ++ ext) = [] ->
  Re.finditer Re.tool_pattern s = [].
Proof.
  intros H. unfold Re.finditer in *.
  rewrite <- (finditer_from_prefix s ext 0 0); [exact H|].
  rewrite H. intros m [].
Qed.

(** A buffer without a complete tool span parses to text alone: no
    block, or one text block. *)
Lemma parse_no_span (message : string) :
  Re.finditer Re.tool_pattern message = [] ->
  MessageParser.parse_assistant_message message = []
  \/ exists c, MessageParser.parse_assistant_message message
               = [TextBlock c false].
Proof.
  intros H.
  unfold MessageParser.parse_assistant_message, MessageParser.parse_loop.
  rewrite H. simpl fold_left.
  destruct (parse_finish_shape message [] 0) as [tl [-> Htl]].
  simpl. destruct Htl as [-> | [c ->]]; eauto.
Qed.

Lemma parse_tools_span (message : string) :
  filter is_tool_use (MessageParser.parse_assistant_message message) = [] ->
  Re.finditer Re.tool_pattern message = [].
Proof.
  unfold MessageParser.parse_assistant_message, MessageParser.parse_loop.
  intros H.
  destruct (parse_fold_shape message
              (Re.finditer Re.tool_pattern message) ([], 0))
    as [[Hnil _] | [front [name [params Hfst]]]]; [exact Hnil|].
  exfalso.
  destruct (fold_left _ _ _) as [blocks last_end]. simpl in Hfst. subst.
  destruct (parse_finish_shape message
              (front ++ [ToolUseBlock name params false])%list last_end)
    as [tl [Heq _]].
  rewrite Heq in H. rewrite !filter_app in H. simpl in H.
  apply app_eq_nil in H. destruct H as [H _].
  apply app_eq_nil in H. destruct H as [_ H]. discriminate.
Qed.

(** A buffer whose parse has no tool invocation has no prefix whose
    parse has one. *)
Lemma parse_prefix_no_tools (b ext : string) :
  filter is_tool_use (MessageParser.parse_assistant_message (b ++ ext)) = [] ->
  Forall (fun blk => is_tool_use blk = false)
    (MessageParser.parse_assistant_message b).
Proof.
  intros H. apply parse_tools_span in H.
  apply finditer_from_append_nil in H.
  destruct (parse_no_span b H) as [-> | [c ->]]; repeat constructor.
Qed.

End GrowingBuffer.

(** ** Claims about the parser *)

(** C10: every segment returned by [parse_assistant_message] has
    [partial = false], for every input string, and the finalization of
    [_make_request] ([block.partial = False] on every block) leaves every
    block with [partial = false] as well: no block is ever marked
    partial, and finalizing a parse result changes nothing, so a last
    segment that can still grow looks like a finalized one. *)
Theorem parse_never_partial (message : string) (blocks : list Block) :
  Forall (fun b => partial b = false)
    (MessageParser.parse_assistant_message message)
  /\ Forall (fun b => partial b = false) (map finalize blocks)
  /\ map finalize (MessageParser.parse_assistant_message message)
     = MessageParser.parse_assistant_message message.
Proof.
  split; [apply parse_nonpartial|].
  split; [apply finalize_nonpartial|].
  apply finalize_id, parse_nonpartial.
Qed.

(** C9: the buffer of scenario A parses to exactly three segments, the
    text before the tool span, the invocation of [read_file] with
    [path = a.txt], and the text after it, the texts and the parameter
    value without the surrounding white space. *)
Theorem parse_scenario_A :
  MessageParser.parse_assistant_message
    "Hello <read_file><path>a.txt</path></read_file> world"
  = [TextBlock "Hello" false;
     ToolUseBlock "read_file" [("path", "a.txt")] false;
     TextBlock "world" false]
  /\ PyStr.strip "Hello " = "Hello"
  /\ PyStr.strip " world" = "world".
Proof. repeat split; vm_compute; reflexivity. Qed.

(** C4, as stated, fails: the single segment of the unterminated buffer
    is not marked partial. *)
Lemma parse_scenario_B_not_partial :
  ~ exists c,
      MessageParser.parse_assistant_message
        "<write_to_file><path>x</path><content>hi</content>"
      = [TextBlock c true].
Proof. intros [c H]. vm_compute in H. discriminate. Qed.

(** C4, amended: the unterminated buffer of scenario B parses to exactly
    one segment, a text segment whose content is the whole trimmed
    buffer, with [partial = false]; no tool invocation is emitted. *)
Theorem parse_scenario_B :
  let buffer := "<write_to_file><path>x</path><content>hi</content>" in
  MessageParser.parse_assistant_message buffer
  = [TextBlock (PyStr.strip buffer) false]
  /\ filter is_tool_use (MessageParser.parse_assistant_message buffer) = [].
Proof. split; vm_compute; reflexivity. Qed.

(** C5, as stated, fails: ["Hel"] is a strict prefix of ["Hello"], neither
    has a tool span, and the only segment of the first parse is finalized
    but is not a segment of the second. *)
Lemma parse_prefix_unstable :
  strict_prefix "Hel" "Hello"
  /\ no_new_tool_tags "Hel" "Hello"
  /\ ~ list_prefix
         (finalized (MessageParser.parse_assistant_message "Hel"))
         (finalized (MessageParser.parse_assistant_message "Hello")).
Proof.
  split; [|split].
  - exists "lo". split; [discriminate | reflexivity].
  - intros m H. vm_compute in H. destruct H.
  - intros [tl H]. vm_compute in H. discriminate.
Qed.

(** C5, amended: for buffers [b1], [b2] with [b1] a strict prefix of [b2]
    and the same complete tool spans, the finalized segments of
    [parse(b1)] other than a last text segment (the text after the last
    tool span, returned with [partial = false] although it can still
    grow) are a prefix of the finalized segments of [parse(b2)]. *)
Theorem parse_prefix_stable (b1 b2 : string) :
  strict_prefix b1 b2 ->
  no_new_tool_tags b1 b2 ->
  list_prefix
    (without_trailing_text
       (finalized (MessageParser.parse_assistant_message b1)))
    (finalized (MessageParser.parse_assistant_message b2)).
Proof.
  intros Hstrict Hnew.
  pose proof (no_new_tags_same_spans b1 b2 Hstrict Hnew) as Hsame.
  destruct Hstrict as [ext [_ ->]].
  rewrite !finalized_nonpartial by apply parse_nonpartial.
  unfold MessageParser.parse_assistant_message, MessageParser.parse_loop.
  rewrite Hsame.
  rewrite parse_fold_append.
  2:{ apply Forall_forall. intros m Hin.
      apply finditer_from_start in Hin. lia. }
  pose proof (parse_fold_shape b1 (Re.finditer Re.tool_pattern b1) ([], 0))
    as Hshape.
  destruct (fold_left (MessageParser.parse_step b1) _ _)
    as [blocks last_end].
  destruct (parse_finish_shape (b1 ++ ext) blocks last_end)
    as [tl2 [-> _]].
  destruct (parse_finish_shape b1 blocks last_end) as [tl1 [-> Htl1]].
  exists tl2. f_equal.
  unfold without_trailing_text.
  destruct Htl1 as [-> | [c ->]].
  - rewrite app_nil_r.
    destruct Hshape as [[_ Hst] | [front [name [params Hfst]]]].
    + now inversion Hst.
    + simpl in Hfst. subst. now rewrite rev_app_distr.
  - rewrite rev_app_distr. simpl. symmetry. apply rev_involutive.
Qed.

Lemma parse_prefix_stable_witness :
  let b1 := "See <list_files><path>.</path></list_files> then <read" in
  let b2 := "See <list_files><path>.</path></list_files> then <read_file>" in
  strict_prefix b1 b2
  /\ no_new_tool_tags b1 b2
  /\ list_prefix
       (without_trailing_text
          (finalized (MessageParser.parse_assistant_message b1)))
       (finalized (MessageParser.parse_assistant_message b2)).
Proof.
  intros b1 b2.
  assert (H1 : strict_prefix b1 b2).
  { exists "_file>". split; [discriminate | reflexivity]. }
  assert (H2 : no_new_tool_tags b1 b2) by (intros m H; exact H).
  split; [exact H1 | split; [exact H2 |]].
  exact (parse_prefix_stable b1 b2 H1 H2).
Defined.

(** ** The tool dispatcher *)

Section DispatcherFacts.

Variable FS : Type.
Variable tools : ToolExecutor.Tools FS.

Lemma execute_tool_returned (name : string) (params : PyDict.t) (fs : FS) :
  exists result fs',
    ToolExecutor.execute_tool tools name params fs
    = (ToolExecutor.Returned result, fs').
Proof.
  unfold ToolExecutor.execute_tool.
  destruct (ToolExecutor.dispatch tools name params fs) as [[s|e] fs'];
    eauto.
Qed.

Lemma dispatch_unknown (name : string) (params : PyDict.t) (fs : FS) :
  ~ In name Re.tool_names ->
  ToolExecutor.dispatch tools name params fs
  = (ToolExecutor.Returned ("Unknown tool: " ++ name), fs).
Proof.
  intros Hnot. unfold ToolExecutor.dispatch.
  repeat match goal with
  | |- context [(name =? ?t)%string] =>
      destruct (String.eqb_spec name t) as [->|_];
      [exfalso; apply Hnot; simpl; tauto|]
  end.
  reflexivity.
Qed.

End DispatcherFacts.

(** C8: [execute_tool] returns a string for every tool invocation and
    raises nothing: when the tool body raises [e] the result is the
    string ["Error: " ++ str(e)], and a name outside the five known tools
    gives the string ["Unknown tool: " ++ name]. *)
Theorem execute_tool_never_raises (FS : Type) (tools : ToolExecutor.Tools FS)
    (name : string) (params : PyDict.t) (fs : FS) :
  exists result fs',
    ToolExecutor.execute_tool tools name params fs
    = (ToolExecutor.Returned result, fs')
    /\ (forall e,
          fst (ToolExecutor.dispatch tools name params fs)
          = ToolExecutor.Raised e ->
          result = "Error: " ++ e)
    /\ (~ In name Re.tool_names -> result = "Unknown tool: " ++ name).
Proof.
  unfold ToolExecutor.execute_tool.
  destruct (ToolExecutor.dispatch tools name params fs) as [[s|e] fs'] eqn:D.
  - exists s, fs'. split; [reflexivity|]. split.
    + intros e He. discriminate.
    + intros Hnot. rewrite (dispatch_unknown FS tools) in D by exact Hnot.
      congruence.
  - exists ("Error: " ++ e), fs'. split; [reflexivity|]. split.
    + intros e' He. simpl in He. congruence.
    + intros Hnot. rewrite (dispatch_unknown FS tools) in D by exact Hnot.
      discriminate.
Qed.

(** Scenario C, and a tool body that raises, on [Scenario.tools]. *)
Example execute_tool_scenario_C :
  ToolExecutor.execute_tool Scenario.tools "list_files" [("path", "nowhere")] tt
  = (ToolExecutor.Returned "Directory nowhere does not exist", tt)
  /\ ToolExecutor.execute_tool Scenario.tools "write_to_file"
       [("path", "a.txt"); ("content", "x")] tt
     = (ToolExecutor.Returned "Error: Permission denied", tt)
  /\ ToolExecutor.execute_tool Scenario.tools "delete_file" [] tt
     = (ToolExecutor.Returned "Unknown tool: delete_file", tt).
Proof. repeat split. Qed.

(** ** Presentation, turn by turn *)

Section PresentationFacts.

Variable FS : Type.
Variable env : Env FS.

Lemma visits_app (a b : list Event) : visits (a ++ b)%list = (visits a ++ visits b)%list.
Proof.
  induction a as [|e a IH]; [reflexivity|].
  destruct e; simpl; now rewrite IH.
Qed.

Lemma visited_app (a b : list Event) :
  visited (a ++ b)%list = (visited a ++ visited b)%list.
Proof.
  induction a as [|e a IH]; [reflexivity|].
  destruct e; simpl; now rewrite IH.
Qed.

Lemma executed_app (a b : list Event) :
  executed (a ++ b)%list = (executed a ++ executed b)%list.
Proof.
  induction a as [|e a IH]; [reflexivity|].
  destruct e; simpl; now rewrite IH.
Qed.

Lemma skipn_cons {A : Type} (l : list A) :
  forall i b r, skipn i l = b :: r -> skipn (S i) l = r /\ In b l.
Proof.
  induction l as [|x l IH]; intros i b r H.
  - destruct i; discriminate.
  - destruct i as [|i]; simpl in H.
    + inversion H; subst. split; [reflexivity | now left].
    + apply IH in H. destruct H as [H1 H2]. split; [exact H1 | now right].
Qed.

Lemma skipn_nonempty {A : Type} (l : list A) :
  forall i, i < length l -> exists b r, skipn i l = b :: r.
Proof.
  induction l as [|x l IH]; intros i H; simpl in H; [lia|].
  destruct i as [|i]; simpl; [eauto|]. apply IH. lia.
Qed.

Lemma open_trace_visit (i : nat) (acc : list Event) (b : Block) :
  open_trace i acc ->
  is_completion b = false ->
  is_dispatched b = false ->
  open_trace (S i) (acc ++ [EvVisit i b])%list.
Proof.
  intros [Hv [Hc He]] Hb Hd. unfold open_trace.
  rewrite visits_app, visited_app, executed_app, filter_app, seq_S, Hv, He.
  cbn [visits visited executed filter Nat.add]. rewrite Hd, app_nil_r.
  repeat split; try reflexivity.
  apply Forall_app. split; [exact Hc | now constructor].
Qed.

Lemma open_trace_execute (i : nat) (acc : list Event) (b : Block)
    (result : string) :
  open_trace i acc ->
  is_dispatched b = true ->
  open_trace (S i) (acc ++ [EvVisit i b; EvExecute b result])%list.
Proof.
  intros [Hv [Hc He]] Hd. unfold open_trace.
  rewrite visits_app, visited_app, executed_app, filter_app, seq_S, Hv, He.
  cbn [visits visited executed filter Nat.add]. rewrite Hd.
  repeat split; try reflexivity.
  apply Forall_app. split; [exact Hc|]. constructor; [|constructor].
  destruct b as [c p | n ps [|]]; simpl in *; try discriminate.
  now destruct (n =? "attempt_completion")%string.
Qed.


Lemma present_post_frame (base : list Event) (self0 self : Task)
    (w0 w : World FS) (r : Res FS unit) :
  present_post base self w r ->
  assistant_message_content (task_state self)
  = assistant_message_content (task_state self0) ->
  is_streaming (task_state self) = is_streaming (task_state self0) ->
  conversation_history self = conversation_history self0 ->
  next_task self = next_task self0 ->
  n_requests w = n_requests w0 ->
  (Forall (fun b => is_tool_use b = false)
     (assistant_message_content (task_state self0)) ->
   user_message_content (task_state self)
   = user_message_content (task_state self0)) ->
  present_post base self0 w0 r.
Proof.
  intros (self' & w' & acc' & Hr & Htr & Htt & Hb & Hs & Hh & Hn & Hrd
          & Hnt & Hno) Eb Es Eh En Er Eu.
  exists self', w', acc'. rewrite <- Eb, <- Es, <- Eh, <- En, <- Er.
  repeat split; auto.
  - now apply Hno.
  - rewrite <- Eu by (now rewrite <- Eb). now apply Hno.
Qed.

Lemma advance_spec (recurse : Task -> World FS -> Res FS unit)
    (block : Block) (rest' : list Block) (self : Task) (w : World FS)
    (base acc : list Event) :
  let ts := task_state self in
  (forall self1 w1 acc1,
      present_pre base acc1 self1 w1 ->
      rest' = skipn (current_streaming_content_index (task_state self1))
                (assistant_message_content (task_state self1)) ->
      present_post base self1 w1 (recurse self1 w1)) ->
  abort ts = false ->
  Forall nonpartial (assistant_message_content ts) ->
  trace w = (base ++ acc)%list ->
  open_trace (S (current_streaming_content_index ts)) acc ->
  partial block = false ->
  current_streaming_content_index ts < length (assistant_message_content ts) ->
  skipn (S (current_streaming_content_index ts)) (assistant_message_content ts)
  = rest' ->
  present_post base self w (advance recurse block self w).
Proof.
  destruct self as [[st idx blocks umc rdy ab] hist nt].
  simpl. intros IH Hab Hnp Htr Hopen Hpart Hlt Hrest. subst ab.
  unfold advance. rewrite Hpart. cbn [negb].
  cbn [task_state current_streaming_content_index assistant_message_content].
  rewrite Nat.add_1_r.
  destruct (S idx <? length blocks) eqn:E2.
  - eapply present_post_frame.
    + apply (IH _ w acc).
      * destruct (idx =? length blocks - 1); repeat split; simpl; auto;
          apply Hopen.
      * destruct (idx =? length blocks - 1); simpl; auto.
    + destruct (idx =? length blocks - 1); reflexivity.
    + destruct (idx =? length blocks - 1); reflexivity.
    + destruct (idx =? length blocks - 1); reflexivity.
    + destruct (idx =? length blocks - 1); reflexivity.
    + reflexivity.
    + intros _. destruct (idx =? length blocks - 1); reflexivity.
  - apply Nat.ltb_ge in E2.
    assert (E3 : (idx =? length blocks - 1) = true)
      by (apply Nat.eqb_eq; lia).
    rewrite E3. eexists _, _, acc. split; [reflexivity|].
    simpl. repeat split; auto; apply Hopen.
Qed.

Lemma present_from_spec (rest : list Block) :
  forall (self : Task) (w : World FS) (base acc : list Event),
    present_pre base acc self w ->
    rest = skipn (current_streaming_content_index (task_state self))
             (assistant_message_content (task_state self)) ->
    present_post base self w (present_from env rest self w).
Proof.
  induction rest as [|block rest' IH];
    intros [[st idx blocks umc rdy ab] hist nt] [f nr ni tr] base acc;
    intros (Hab & Hnp & Htr & Hopen) Hrest; simpl in *; subst ab tr.
  - destruct (length blocks <=? idx) eqn:E.
    + eexists _, _, acc. split; [reflexivity|].
      destruct st; simpl; repeat split; auto; try easy; apply Hopen.
    + apply Nat.leb_gt in E.
      destruct (skipn_nonempty blocks idx E) as [b [r Hbr]]. congruence.
  - destruct (length blocks <=? idx) eqn:E.
    + eexists _, _, acc. split; [reflexivity|].
      destruct st; simpl; repeat split; auto; try easy; apply Hopen.
    + apply Nat.leb_gt in E. symmetry in Hrest.
      destruct (skipn_cons blocks idx block rest' Hrest) as [Hrest' Hin].
      pose proof (proj1 (Forall_forall _ _) Hnp block Hin) as Hpart.
      unfold nonpartial in Hpart.
      destruct block as [c p | name params p]; simpl in Hpart; subst p.
      * eapply present_post_frame.
        -- eapply (advance_spec _ _ rest' _ _ base
                     (acc ++ [EvVisit idx (TextBlock c false)])%list);
             simpl; auto.
           ++ intros; eapply IH; eauto.
           ++ now rewrite app_assoc.
           ++ now apply open_trace_visit.
        -- reflexivity.
        -- reflexivity.
        -- reflexivity.
        -- reflexivity.
        -- reflexivity.
        -- reflexivity.
      * assert (Htool : ~ Forall (fun b => is_tool_use b = false) blocks).
        { intros HF.
          apply (proj1 (Forall_forall _ _) HF) in Hin. discriminate. }
        destruct (name =? "attempt_completion")%string eqn:Ename.
        -- unfold present_completion, read_input. cbn [n_inputs log trace].
           set (line := input env ni).
           set (self' := if existsb _ _ then _ else _).
           assert (Hs : abort (task_state self') = true
                        /\ is_streaming (task_state self') = st
                        /\ current_streaming_content_index
                             (task_state self') = idx
                        /\ assistant_message_content (task_state self')
                           = blocks
                        /\ conversation_history self' = hist).
           { subst self'.
             destruct (existsb _ _); [|destruct (PyStr.truthy _)];
               repeat split. }
           destruct Hs as (Ha & Hst & Hi & Hb & Hh).
           eexists _, _,
             (acc ++ [EvVisit idx (ToolUseBlock name params false);
                      EvInput line])%list.
           split; [reflexivity|]. simpl.
           rewrite Ha, Hst, Hi, Hb, Hh.
           repeat split; auto; try easy.
           ++ now rewrite <- !app_assoc.
           ++ exists acc, (ToolUseBlock name params false), line.
              repeat split; auto; apply Hopen.
        -- destruct (execute_tool_returned FS (tools env) name params f)
             as [result [fs' Hex]].
           rewrite Hex.
           eapply present_post_frame.
           ++ eapply (advance_spec _ _ rest' _ _ base
                        (acc ++ [EvVisit idx (ToolUseBlock name params false);
                                 EvExecute (ToolUseBlock name params false)
                                   result])%list);
                simpl; auto.
              ** intros; eapply IH; eauto.
              ** now rewrite <- !app_assoc.
              ** apply open_trace_execute; [exact Hopen|].
                 simpl. now rewrite Ename.
           ++ reflexivity.
           ++ reflexivity.
           ++ reflexivity.
           ++ reflexivity.
           ++ reflexivity.
           ++ intros HF. now apply Htool in HF.
Qed.


Lemma _present_content_spec (self : Task) (w : World FS)
    (base acc : list Event) :
  present_pre base acc self w ->
  present_post base self w (_present_content env self w).
Proof. intros H. unfold _present_content. now apply present_from_spec with acc. Qed.

Lemma parse_empty : MessageParser.parse_assistant_message EmptyString = [].
Proof. reflexivity. Qed.

Lemma stream_loop_spec (cs : list StreamChunk) :
  forall (msg : string) (self : Task) (w : World FS)
         (base acc : list Event),
    present_pre base acc self w ->
    exists msg' broke self' w' acc',
      stream_loop env cs msg self w = Ok (msg', broke) self' w'
      /\ trace w' = (base ++ acc')%list
      /\ turn_trace (current_streaming_content_index (task_state self'))
           (abort (task_state self')) acc'
      /\ Forall nonpartial (assistant_message_content (task_state self'))
      /\ is_streaming (task_state self') = is_streaming (task_state self)
      /\ conversation_history self' = conversation_history self
      /\ n_requests w' = n_requests w
      /\ broke = abort (task_state self')
      /\ (abort (task_state self') = false ->
          next_task self' = next_task self
          /\ msg' = msg ++ reply_text cs
          /\ (assistant_message_content (task_state self')
              = MessageParser.parse_assistant_message msg'
              \/ (msg' = msg
                  /\ assistant_message_content (task_state self')
                     = assistant_message_content (task_state self))))
      /\ (filter is_tool_use
            (MessageParser.parse_assistant_message (msg ++ reply_text cs))
          = [] ->
          abort (task_state self') = false
          /\ user_message_content (task_state self')
             = user_message_content (task_state self)).
Proof.
  induction cs as [|chunk rest IH]; intros msg self w base acc Hpre.
  - exists msg, false, self, w, acc.
    destruct Hpre as (Hab & Hnp & Htr & Hopen).
    simpl. rewrite Hab, append_empty_r.
    repeat split; auto; apply Hopen.
  - cbn [stream_loop reply_text].
    destruct (text_delta chunk) as [text|] eqn:Etext.
    + set (msg1 := msg ++ text).
      set (self1 := set_assistant_content _ self).
      assert (Hpre1 : present_pre base acc self1 w).
      { destruct Hpre as (Hab & Hnp & Htr & Hopen).
        destruct self as [[st idx blocks umc rdy ab] hist nt].
        repeat split; simpl in *; auto; try apply Hopen.
        apply parse_nonpartial. }
      destruct (_present_content_spec self1 w base acc Hpre1)
        as (self2 & w2 & acc2 & Hr & Htr2 & Htt2 & Hb2 & Hs2 & Hh2 & Hn2
            & _ & Hnt2 & Hno2).
      rewrite Hr. cbn [bind].
      assert (Hblocks1 : assistant_message_content (task_state self1)
                         = MessageParser.parse_assistant_message msg1)
        by (destruct self as [[? ? ? ? ? ?] ? ?]; reflexivity).
      assert (Hframe1 : is_streaming (task_state self1)
                        = is_streaming (task_state self)
                        /\ conversation_history self1
                           = conversation_history self
                        /\ next_task self1 = next_task self
                        /\ user_message_content (task_state self1)
                           = user_message_content (task_state self))
        by (destruct self as [[? ? ? ? ? ?] ? ?]; repeat split).
      destruct Hframe1 as (Hs1 & Hh1 & Hn1 & Hu1).
      destruct (abort (task_state self2)) eqn:Hab2.
      * exists msg1, true, self2, w2, acc2.
        rewrite Hab2. split; [reflexivity|].
        split; [exact Htr2|]. split; [exact Htt2|].
        split; [rewrite Hb2, Hblocks1; apply parse_nonpartial|].
        split; [congruence|]. split; [congruence|]. split; [exact Hn2|].
        split; [reflexivity|]. split; [discriminate|].
        intros Hno. exfalso.
        rewrite <- append_assoc in Hno. fold msg1 in Hno.
        apply parse_prefix_no_tools in Hno.
        rewrite <- Hblocks1 in Hno. apply Hno2 in Hno.
        destruct Hno. congruence.
      * assert (Hpre2 : present_pre base acc2 self2 w2).
        { unfold present_pre. split; [exact Hab2|].
          split; [rewrite Hb2, Hblocks1; apply parse_nonpartial|].
          split; [exact Htr2|].
          exact Htt2. }
        destruct (IH msg1 self2 w2 base acc2 Hpre2)
          as (msg' & broke & self' & w' & acc' & Hr' & Htr' & Htt' & Hnp'
              & Hs' & Hh' & Hn' & Hbr' & Hok' & Hno').
        exists msg', broke, self', w', acc'.
        split; [exact Hr'|]. split; [exact Htr'|]. split; [exact Htt'|].
        split; [exact Hnp'|].
        split; [congruence|]. split; [congruence|]. split; [congruence|].
        split; [exact Hbr'|]. split.
        -- intros Hab'. destruct (Hok' Hab') as (Hnt' & Hm' & Hp').
           split; [|split].
           ++ rewrite Hnt', Hnt2 by reflexivity. exact Hn1.
           ++ rewrite Hm'. unfold msg1. apply append_assoc.
           ++ left. destruct Hp' as [Hp | [Hm Hp]]; [exact Hp|].
              rewrite Hp, Hb2, Hblocks1, Hm. reflexivity.
        -- intros Hno.
           rewrite <- append_assoc in Hno. fold msg1 in Hno.
           destruct (Hno' Hno) as [Ha' Hu']. split; [exact Ha'|].
           rewrite Hu'. apply parse_prefix_no_tools in Hno.
           rewrite <- Hblocks1 in Hno. apply Hno2 in Hno.
           destruct Hno as [_ Hu2]. congruence.
    + eapply IH. exact Hpre.
Qed.


Lemma make_request_aborted (uc : list ContentItem) (self : Task)
    (w : World FS) :
  abort (task_state self) = true ->
  _make_request env uc self w = Ok true self w.
Proof. intros H. unfold _make_request. now rewrite H. Qed.

Lemma make_request_spec (uc : list ContentItem) (self : Task)
    (w : World FS) :
  let messages := request_messages uc self in
  let reply := create_message_stream env (n_requests w) messages in
  let text := reply_text (chunks reply) in
  abort (task_state self) = false ->
  exists did_end self' w' acc,
    _make_request env uc self w = Ok did_end self' w'
    /\ trace w' = (trace w ++ EvRequest messages :: acc)%list
    /\ turn_trace (current_streaming_content_index (task_state self'))
         (abort (task_state self')) acc
    /\ Forall nonpartial (assistant_message_content (task_state self'))
    /\ n_requests w' = S (n_requests w)
    /\ is_streaming (task_state self') = false
    /\ (abort (task_state self') = true -> did_end = true)
    /\ (abort (task_state self') = false -> next_task self' = next_task self)
    /\ (failure reply = None ->
        filter is_tool_use (MessageParser.parse_assistant_message text) = [] ->
        abort (task_state self') = false
        /\ user_message_content (task_state self') = []
        /\ did_end = negb (PyStr.truthy text)
        /\ assistant_message_content (task_state self')
           = MessageParser.parse_assistant_message text
        /\ conversation_history self'
           = if PyStr.truthy text
             then (conversation_history self
                     ++ [mkMessage "assistant" text])%list
             else conversation_history self).
Proof.
  intros messages reply text Hab.
  unfold _make_request. rewrite Hab.
  fold (request_messages uc self). fold messages.
  cbn zeta.
  replace (conversation_history
             (set_ready false
                (set_user_content []
                   (set_assistant_content [] (set_index 0 self)))))
    with (conversation_history self)
    by (destruct self as [[? ? ? ? ? ?] ? ?]; reflexivity).
  fold (request_messages uc self). fold messages. fold reply.
  set (self0 := set_is_streaming true _).
  set (w0 := log (EvRequest messages) _).
  assert (Hpre0 : present_pre (trace w ++ [EvRequest messages])%list []
                    self0 w0).
  { destruct self as [[? ? ? ? ? ?] ? ?]. simpl in Hab.
    unfold present_pre. simpl. rewrite app_nil_r.
    repeat split; auto; constructor. }
  assert (Hself0 : conversation_history self0 = conversation_history self
                   /\ next_task self0 = next_task self
                   /\ user_message_content (task_state self0) = []
                   /\ assistant_message_content (task_state self0) = [])
    by (destruct self as [[? ? ? ? ? ?] ? ?]; repeat split).
  destruct Hself0 as (Hh0 & Hn0 & Hu0 & Hb0).
  destruct (stream_loop_spec (chunks reply) EmptyString self0 w0 _ []
              Hpre0)
    as (msg' & broke & self1 & w1 & acc1 & Hr1 & Htr1 & Htt1 & Hnp1
        & Hs1 & Hh1 & Hn1 & Hbr1 & Hok1 & Hno1).
  rewrite Hr1. cbn [bind]. cbn [append] in Hok1, Hno1. fold text in Hok1, Hno1.
  assert (Htrace : forall acc,
             ((trace w ++ [EvRequest messages]) ++ acc
              = trace w ++ EvRequest messages :: acc)%list)
    by (intros; now rewrite <- app_assoc).
  destruct self1 as [[st1 idx1 blocks1 umc1 rdy1 ab1] hist1 nt1].
  cbn [task_state abort current_streaming_content_index
       assistant_message_content is_streaming conversation_history
       next_task user_message_content] in *.
  subst broke.
  destruct ab1.
  - exists true. eexists _, w1, acc1.
    split; [reflexivity|]. rewrite Htr1, Htrace. simpl.
    split; [reflexivity|]. split; [exact Htt1|].
    repeat split; auto; try discriminate;
      match goal with
      | Hno : filter _ _ = [] |- _ => destruct (Hno1 Hno); discriminate
      end.
  - destruct (failure reply) as [e|] eqn:Ef.
    + exists true. eexists _, w1, acc1.
      split; [reflexivity|]. rewrite Htr1, Htrace. simpl.
      split; [reflexivity|]. split; [exact Htt1|].
      repeat split; auto; try discriminate; try congruence.
      apply Hok1.
    + cbn [set_is_streaming task_state abort current_streaming_content_index
           assistant_message_content is_streaming conversation_history
           next_task user_message_content user_message_content_ready
           set_assistant_content].
      destruct (Hok1 eq_refl) as (Hnt1 & Hmsg & Hblocks).
      assert (Hparse : blocks1 = MessageParser.parse_assistant_message msg').
      { destruct Hblocks as [Hp | [Hm Hp]]; [exact Hp|].
        rewrite Hp, Hb0, Hm. reflexivity. }
      clear Hblocks.
      rewrite (finalize_id blocks1 Hnp1).
      set (self2 := set_assistant_content blocks1 _).
      assert (Hpre2 : present_pre (trace w ++ [EvRequest messages])%list
                        acc1 self2 w1).
      { unfold present_pre. simpl. auto. }
      destruct (_present_content_spec self2 w1 _ acc1 Hpre2)
        as (self3 & w3 & acc3 & Hr3 & Htr3 & Htt3 & Hb3 & Hs3 & Hh3 & Hn3
            & Hrd3 & Hnt3 & Hno3).
      rewrite Hr3. cbn [bind].
      rewrite (Hrd3 eq_refl). cbn [negb andb].
      destruct self3 as [[st3 idx3 blocks3 umc3 rdy3 ab3] hist3 nt3].
      cbn [task_state abort current_streaming_content_index
           assistant_message_content is_streaming conversation_history
           next_task user_message_content self2] in *.
      subst blocks3 st3. subst self2. simpl in *. subst msg' hist3.
      assert (Hfilter : filter is_tool_use blocks1 = [] ->
                        ab3 = false /\ umc3 = []).
      { intros Hf. rewrite Hparse in Hf.
        destruct (Hno1 Hf) as [_ Hu1].
        destruct Hno3 as [Ha3 Hu3]; [|split; congruence].
        rewrite Hparse. apply Forall_forall. intros b Hin.
        destruct (is_tool_use b) eqn:Eb; [|reflexivity].
        assert (Hin' : In b (filter is_tool_use
                               (MessageParser.parse_assistant_message text)))
          by (apply filter_In; auto).
        rewrite Hf in Hin'. destruct Hin'. }
      rewrite <- Hparse in *.
      destruct ab3.
      * exists true. eexists _, w3, acc3.
        split; [reflexivity|]. rewrite Htr3, Htrace. simpl.
        split; [reflexivity|]. split; [exact Htt3|].
        repeat split; auto; try discriminate; try congruence;
          match goal with
          | Hno : filter _ _ = [] |- _ =>
              destruct (Hfilter Hno); discriminate
          end.
      * destruct (PyStr.truthy text) eqn:Etext;
          [destruct (filter is_tool_use blocks1) eqn:Ef1|].
        -- exists false. eexists _, w3, acc3.
           split; [reflexivity|]. rewrite Htr3, Htrace. simpl.
           split; [reflexivity|]. split; [exact Htt3|].
           destruct (Hfilter eq_refl) as [_ Hu3].
           repeat split; auto; try discriminate; try congruence.
           rewrite Hnt3 by reflexivity. apply Hok1; reflexivity.
        -- exists true. eexists _, w3, acc3.
           split; [reflexivity|]. rewrite Htr3, Htrace. simpl.
           split; [reflexivity|]. split; [exact Htt3|].
           repeat split; auto; try discriminate; try congruence.
           rewrite Hnt3 by reflexivity. apply Hok1; reflexivity.
        -- exists true. eexists _, w3, acc3.
           split; [reflexivity|]. rewrite Htr3, Htrace. simpl.
           split; [reflexivity|]. split; [exact Htt3|].
           repeat split; auto; try discriminate; try congruence.
           ++ rewrite Hnt3 by reflexivity. apply Hok1; reflexivity.
           ++ match goal with
              | Hno : filter _ _ = [] |- _ => now destruct (Hfilter Hno)
              end.
Qed.

End PresentationFacts.

(** ** Claims about a turn *)

Section TraceFacts.

Lemma turn_trace_visits (index : nat) (aborted : bool) (acc : list Event) :
  turn_trace index aborted acc ->
  visits acc = seq 0 (length (visits acc))
  /\ executed acc = filter is_dispatched (visited acc).
Proof.
  destruct aborted; simpl.
  - intros (front & b & line & -> & Hb & Hv & _ & He).
    rewrite visits_app, visited_app, executed_app, filter_app.
    cbn [visits visited executed filter].
    assert (Hd : is_dispatched b = false).
    { destruct b as [c p | n ps [|]]; simpl in *; try reflexivity.
      now rewrite Hb. }
    rewrite Hd, He, Hv, length_app, length_seq, !app_nil_r.
    cbn [length]. rewrite Nat.add_1_r, seq_S. auto.
  - intros (Hv & _ & He). rewrite Hv, length_seq. auto.
Qed.

(** In a trace closed by a completion call, the only read of a
    completion call is the closing one. *)
Lemma closing_visit_last (front : list Event) :
  forall before after k b k0 b0 line,
    (before ++ EvVisit k b :: after)%list
    = (front ++ [EvVisit k0 b0; EvInput line])%list ->
    Forall (fun blk => is_completion blk = false) (visited front) ->
    is_completion b = true ->
    after = [EvInput line].
Proof.
  induction front as [|e front IH];
    intros before after k b k0 b0 line Heq Hfront Hb.
  - destruct before as [|x before]; simpl in Heq.
    + now inversion Heq.
    + inversion Heq as [[Hx Hrest]].
      destruct before as [|y before]; simpl in Hrest; [discriminate|].
      inversion Hrest as [[Hy Hnil]].
      destruct before; discriminate.
  - destruct before as [|x before]; simpl in Heq.
    + inversion Heq; subst. simpl in Hfront.
      inversion Hfront; subst. congruence.
    + inversion Heq as [[Hx Hrest]]. subst x.
      eapply IH; [exact Hrest | | exact Hb].
      destruct e; simpl in Hfront; auto; now inversion Hfront.
Qed.

Lemma visited_in (tr : list Event) (k : nat) (b : Block) :
  In (EvVisit k b) tr -> In b (visited tr).
Proof.
  induction tr as [|e tr IH]; [easy|].
  intros [-> | Hin]; [now left|].
  destruct e; simpl; auto.
Qed.

End TraceFacts.

(** C7: in every turn the presentation reads the segment indices
    [0, 1, 2, ...] in this order, each one once, whatever the deltas of
    the stream and although the buffer is parsed again and presentation
    run again after each of them; and a tool is run once for each read of
    a dispatched tool segment, and at no other moment. *)
Theorem presentation_in_order (FS : Type) (env : Env FS)
    (user_content : list ContentItem) (self : Task) (w : World FS) :
  exists did_end self' w' new,
    _make_request env user_content self w = Ok did_end self' w'
    /\ trace w' = (trace w ++ new)%list
    /\ visits new = seq 0 (length (visits new))
    /\ executed new = filter is_dispatched (visited new).
Proof.
  destruct (abort (task_state self)) eqn:Hab.
  - exists true, self, w, [].
    rewrite (make_request_aborted FS env) by exact Hab.
    rewrite app_nil_r. auto.
  - destruct (make_request_spec FS env user_content self w Hab)
      as (did_end & self' & w' & acc & Hr & Htr & Htt & _).
    exists did_end, self', w', (EvRequest (request_messages user_content self)
                                :: acc).
    apply turn_trace_visits in Htt. simpl. tauto.
Qed.

(** C6: once the presentation of a turn has read a completion call
    ([attempt_completion]), nothing more is presented in that turn: what
    follows the read in the trace of the turn is the operator's answer
    alone, no segment is read and no tool is run, and the turn is
    aborted. *)
Theorem completion_short_circuit (FS : Type) (env : Env FS)
    (user_content : list ContentItem) (self self' : Task) (w w' : World FS)
    (did_end : bool) (before after : list Event) (k : nat) (b : Block) :
  _make_request env user_content self w = Ok did_end self' w' ->
  trace w' = (trace w ++ before ++ EvVisit k b :: after)%list ->
  is_completion b = true ->
  Forall (fun e => is_presentation e = false) after
  /\ abort (task_state self') = true
  /\ did_end = true.
Proof.
  intros Hr Htr Hb.
  destruct (abort (task_state self)) eqn:Hab.
  - rewrite (make_request_aborted FS env) in Hr by exact Hab.
    inversion Hr; subst.
    rewrite <- (app_nil_r (trace w')) in Htr at 1.
    apply app_inv_head in Htr. destruct before; discriminate.
  - destruct (make_request_spec FS env user_content self w Hab)
      as (did_end0 & self0 & w0 & acc & Hr0 & Htr0 & Htt & _ & _ & _
          & Hend & _).
    rewrite Hr in Hr0. inversion Hr0; subst did_end0 self0 w0.
    rewrite Htr in Htr0. apply app_inv_head in Htr0.
    destruct before as [|x before]; simpl in Htr0; [discriminate|].
    inversion Htr0 as [[Hx Hacc]].
    destruct (abort (task_state self')); simpl in Htt.
    + destruct Htt as (front & b0 & line & Hfront & _ & _ & Hnone & _).
      rewrite Hfront in Hacc.
      apply closing_visit_last in Hacc; [|exact Hnone | exact Hb].
      subst after. repeat split; auto.
    + destruct Htt as (_ & Hnone & _).
      assert (Hin : In b (visited acc)).
      { apply (visited_in _ k). rewrite <- Hacc.
        apply in_or_app. right. now left. }
      apply (proj1 (Forall_forall _ _) Hnone) in Hin. congruence.
Qed.

Lemma completion_short_circuit_witness :
  _make_request Scenario.finisher [text_item "t1"] (Scenario.started "t1")
    Scenario.world0
  = Ok true Scenario.finisher_task Scenario.finisher_world
  /\ trace Scenario.finisher_world
     = (trace Scenario.world0
          ++ [EvRequest [mkMessage "user" "t1"; mkMessage "user" "t1"]]
          ++ EvVisit 0 Scenario.completion_call :: [EvInput "t2"])%list
  /\ is_completion Scenario.completion_call = true
  /\ Forall (fun e => is_presentation e = false) [EvInput "t2"]
  /\ abort (task_state Scenario.finisher_task) = true
  /\ true = true.
Proof.
  assert (H1 : _make_request Scenario.finisher [text_item "t1"]
                 (Scenario.started "t1") Scenario.world0
               = Ok true Scenario.finisher_task Scenario.finisher_world)
    by (vm_compute; reflexivity).
  assert (H2 : trace Scenario.finisher_world
               = (trace Scenario.world0
                    ++ [EvRequest [mkMessage "user" "t1";
                                   mkMessage "user" "t1"]]
                    ++ EvVisit 0 Scenario.completion_call
                       :: [EvInput "t2"])%list)
    by reflexivity.
  assert (H3 : is_completion Scenario.completion_call = true)
    by reflexivity.
  split; [exact H1|]. split; [exact H2|]. split; [exact H3|].
  exact (completion_short_circuit unit Scenario.finisher
           [text_item "t1"] (Scenario.started "t1") Scenario.finisher_task
           Scenario.world0 Scenario.finisher_world true
           [EvRequest [mkMessage "user" "t1"; mkMessage "user" "t1"]]
           [EvInput "t2"] 0 Scenario.completion_call H1 H2 H3).
Defined.

(** ** Claims about the task loop *)

(** C1, as stated, fails: the reply ["hello"] has no tool invocation, yet
    [_make_request] returns [False] for [did_end], the task does not end,
    and [_task_loop] sends a second request, with the continuation
    prompt. *)
Lemma text_turn_does_not_end :
  exists self' w' self'' w'',
    _make_request Scenario.talker [text_item "t1"] (Scenario.started "t1")
      Scenario.world0
    = Ok false self' w'
    /\ filter is_tool_use (assistant_message_content (task_state self')) = []
    /\ start_task Scenario.talker 2 "t1" new_task Scenario.world0
       = Some (Ok tt self'' w'')
    /\ requests (trace w'')
       = [[mkMessage "user" "t1"; mkMessage "user" "t1"];
          [mkMessage "user" "t1"; mkMessage "assistant" "hello";
           mkMessage "user" continue_prompt]].
Proof.
  do 4 eexists. split; [vm_compute; reflexivity|].
  split; [reflexivity|]. split; [vm_compute; reflexivity|]. reflexivity.
Qed.

(** C1, amended: a turn that runs to its end (no abort, no backend
    error) and whose finalized segment sequence has no tool invocation
    ends the task only when the backend sent no text at all; when there
    is text, [_make_request] returns [False] and the task goes on:
    [_task_loop] makes the next request with the fixed continuation
    prompt. *)
Theorem turn_without_tools (FS : Type) (env : Env FS)
    (user_content : list ContentItem) (self : Task) (w : World FS) :
  let reply :=
    create_message_stream env (n_requests w)
      (request_messages user_content self) in
  let text := reply_text (chunks reply) in
  abort (task_state self) = false ->
  failure reply = None ->
  filter is_tool_use (MessageParser.parse_assistant_message text) = [] ->
  exists self' w',
    _make_request env user_content self w
    = Ok (negb (PyStr.truthy text)) self' w'
    /\ assistant_message_content (task_state self')
       = MessageParser.parse_assistant_message text
    /\ (PyStr.truthy text = true ->
        forall fuel,
          task_loop env (S fuel) user_content self w
          = task_loop env fuel [text_item continue_prompt] self' w')
    /\ (PyStr.truthy text = false ->
        next_task self = None ->
        forall fuel,
          task_loop env (S fuel) user_content self w
          = Some (Ok tt self' w')).
Proof.
  intros reply text Hab Hfail Hno.
  destruct (make_request_spec FS env user_content self w Hab)
    as (did_end & self' & w' & acc & Hr & _ & _ & _ & _ & _ & _ & Hnt & Hok).
  destruct (Hok Hfail Hno) as (Hab' & _ & Hend & Hblocks & _).
  fold reply in Hend. fold text in Hend. subst did_end.
  exists self', w'. split; [exact Hr|]. split; [exact Hblocks|].
  split.
  - intros Htext fuel. cbn [task_loop]. rewrite Hab, Hr.
    fold reply. fold text. now rewrite Htext.
  - intros Htext Hnone fuel. cbn [task_loop]. rewrite Hab, Hr.
    fold reply. fold text. rewrite Htext. cbn [negb].
    now rewrite (Hnt Hab'), Hnone.
Qed.

Lemma turn_without_tools_witness :
  abort (task_state (Scenario.started "t1")) = false
  /\ failure (Scenario.says "hello") = None
  /\ filter is_tool_use (MessageParser.parse_assistant_message "hello") = []
  /\ exists self' w',
       _make_request Scenario.talker [text_item "t1"] (Scenario.started "t1")
         Scenario.world0
       = Ok false self' w'
       /\ assistant_message_content (task_state self')
          = MessageParser.parse_assistant_message "hello"
       /\ (true = true ->
           forall fuel,
             task_loop Scenario.talker (S fuel) [text_item "t1"]
               (Scenario.started "t1") Scenario.world0
             = task_loop Scenario.talker fuel [text_item continue_prompt]
                 self' w')
       /\ (true = false ->
           next_task (Scenario.started "t1") = None ->
           forall fuel,
             task_loop Scenario.talker (S fuel) [text_item "t1"]
               (Scenario.started "t1") Scenario.world0
             = Some (Ok tt self' w')).
Proof.
  assert (H1 : abort (task_state (Scenario.started "t1")) = false)
    by reflexivity.
  assert (H2 : failure (Scenario.says "hello") = None) by reflexivity.
  assert (H3 : filter is_tool_use
                 (MessageParser.parse_assistant_message "hello") = [])
    by reflexivity.
  split; [exact H1|]. split; [exact H2|]. split; [exact H3|].
  exact (turn_without_tools unit Scenario.talker [text_item "t1"]
           (Scenario.started "t1") Scenario.world0 H1 H2 H3).
Defined.

(** C2 on the code: the model calls [read_file]; the tool is run and its
    result appended to [user_message_content], but [_make_request]
    returns [True], [_task_loop] stops, and the only request ever sent is
    the first one: the result reaches no request. *)
Theorem tool_result_never_sent :
  exists self' w',
    start_task Scenario.reader 5 "t" new_task Scenario.world0
    = Some (Ok tt self' w')
    /\ executed (trace w') = [Scenario.read_call]
    /\ user_message_content (task_state self')
       = [text_item ("Tool read_file result:" ++ PyStr.nl
                       ++ "contents of a.txt")]
    /\ requests (trace w')
       = [[mkMessage "user" "t"; mkMessage "user" "t"]].
Proof.
  do 2 eexists. split; [vm_compute; reflexivity|].
  repeat split.
Qed.

(** C3 on the code: the model reports completion and the operator types
    [t2].  The handoff string is set, used for the next request and
    cleared, but the history is not started afresh: the second request
    still opens with the first task, and the history never holds [t2]. *)
Theorem handoff_keeps_history :
  exists self' w',
    next_task Scenario.finisher_task = Some "t2"
    /\ start_task Scenario.finisher 5 "t1" new_task Scenario.world0
       = Some (Ok tt self' w')
    /\ requests (trace w')
       = [[mkMessage "user" "t1"; mkMessage "user" "t1"];
          [mkMessage "user" "t1"; mkMessage "user" "t2"]]
    /\ conversation_history self' = [mkMessage "user" "t1"]
    /\ next_task self' = None.
Proof.
  do 2 eexists. split; [reflexivity|].
  split; [vm_compute; reflexivity|].
  repeat split.
Qed.

(** * Further properties *)

(** ** The parser, segment by segment *)

Section StripFacts.

Lemma rstrip_cons (c : ascii) (s : string) :
  PyStr.rstrip (String c s)
  = match PyStr.rstrip s with
    | EmptyString =>
        if PyStr.isspace c then EmptyString else String c EmptyString
    | String x r => String c (String x r)
    end.
Proof. reflexivity. Qed.

Lemma rstrip_rstrip (s : string) :
  PyStr.rstrip (PyStr.rstrip s) = PyStr.rstrip s.
Proof.
  induction s as [|c s IH]; [reflexivity|].
  rewrite rstrip_cons.
  destruct (PyStr.rstrip s) as [|x r] eqn:E.
  - destruct (PyStr.isspace c) eqn:Ec; [reflexivity|].
    rewrite rstrip_cons. cbn [PyStr.rstrip]. now rewrite Ec.
  - rewrite rstrip_cons, IH. reflexivity.
Qed.

Lemma lstrip_head (s : string) :
  PyStr.lstrip s = EmptyString
  \/ exists c t, PyStr.lstrip s = String c t /\ PyStr.isspace c = false.
Proof.
  induction s as [|c s IH]; [now left|].
  cbn [PyStr.lstrip]. destruct (PyStr.isspace c) eqn:E; [exact IH|].
  right. eauto.
Qed.

Lemma rstrip_head (c : ascii) (t : string) :
  PyStr.isspace c = false ->
  exists t', PyStr.rstrip (String c t) = String c t'.
Proof.
  intros E. rewrite rstrip_cons.
  destruct (PyStr.rstrip t); [rewrite E|]; eauto.
Qed.

Lemma lstrip_strip (s : string) : PyStr.lstrip (PyStr.strip s) = PyStr.strip s.
Proof.
  unfold PyStr.strip.
  destruct (lstrip_head s) as [-> | (c & t & -> & E)]; [reflexivity|].
  destruct (rstrip_head c t E) as [t' ->].
  cbn [PyStr.lstrip]. now rewrite E.
Qed.

Lemma strip_strip (s : string) : PyStr.strip (PyStr.strip s) = PyStr.strip s.
Proof.
  unfold PyStr.strip at 1. rewrite lstrip_strip.
  unfold PyStr.strip. apply rstrip_rstrip.
Qed.

Lemma lstrip_blank (s : string) :
  PyStr.lstrip s = EmptyString -> all_chars PyStr.isspace s = true.
Proof.
  induction s as [|c s IH]; [reflexivity|].
  cbn [PyStr.lstrip all_chars].
  destruct (PyStr.isspace c); [simpl; exact IH | discriminate].
Qed.

Lemma strip_blank (s : string) :
  PyStr.strip s = EmptyString -> all_chars PyStr.isspace s = true.
Proof.
  unfold PyStr.strip. intros H. apply lstrip_blank.
  destruct (lstrip_head s) as [E | (c & t & E & Ec)]; [exact E|].
  rewrite E in H. destruct (rstrip_head c t Ec) as [t' E'].
  rewrite E' in H. discriminate.
Qed.

End StripFacts.

Section ParserShape.

Lemma match_tag_head (name : string) (c : ascii) (s : string) :
  Re.match_tag name (String c s) <> None -> c = "<"%char.
Proof.
  unfold Re.match_tag. cbn [append String.prefix].
  destruct (ascii_dec "<" c) as [<-|]; [reflexivity | congruence].
Qed.

Lemma tool_pattern_head (c : ascii) (s : string) :
  Re.tool_pattern (String c s) <> None -> c = "<"%char.
Proof.
  unfold Re.tool_pattern. generalize Re.tool_names.
  induction l as [|n ns IH]; simpl; [congruence|].
  destruct (Re.match_tag n (String c s)) as [[g2 len]|] eqn:E; [|exact IH].
  intros _. apply (match_tag_head n c s). rewrite E. discriminate.
Qed.

Lemma finditer_blank (s : string) :
  all_chars PyStr.isspace s = true ->
  forall pos skip, Re.finditer_from Re.tool_pattern s pos skip = [].
Proof.
  induction s as [|c s IH]; intros H pos skip; [reflexivity|].
  cbn [all_chars] in H. apply andb_prop in H. destruct H as [Hc Hs].
  cbn [Re.finditer_from]. destruct skip as [|k]; [|now apply IH].
  destruct (Re.tool_pattern (String c s)) as [r|] eqn:E; [|now apply IH].
  assert (c = "<"%char) by (apply (tool_pattern_head c s); congruence).
  subst c. discriminate.
Qed.

Lemma drop_0 (s : string) : PyStr.drop 0 s = s.
Proof. reflexivity. Qed.

Lemma truthy_false (s : string) : PyStr.truthy s = false -> s = EmptyString.
Proof. now destruct s. Qed.

(** X1: the parser returns no segment exactly for a blank buffer, one
    that is empty or holds white space only. *)
Theorem parse_empty_iff_blank (message : string) :
  MessageParser.parse_assistant_message message = []
  <-> PyStr.strip message = EmptyString.
Proof.
  unfold MessageParser.parse_assistant_message, MessageParser.parse_loop.
  split.
  - intros H.
    destruct (parse_fold_shape message
                (Re.finditer Re.tool_pattern message) ([], 0))
      as [[_ Hst] | (front & name & params & Hfst)].
    + rewrite Hst in H. unfold MessageParser.parse_finish in H.
      destruct message as [|c message]; [reflexivity|].
      cbn [String.length Nat.ltb Nat.leb PyStr.drop] in H.
      change (PyStr.drop 0 (String c message)) with (String c message) in H.
      destruct (PyStr.truthy (PyStr.strip (String c message))) eqn:E;
        [discriminate|].
      now apply truthy_false.
    + destruct (fold_left _ _ _) as [blocks last_end]. simpl in Hfst. subst.
      destruct (parse_finish_shape message
                  (front ++ [ToolUseBlock name params false])%list last_end)
        as [tl [Heq _]].
      rewrite Heq in H. apply app_eq_nil in H. destruct H as [H _].
      apply app_eq_nil in H. destruct H as [_ H]. discriminate.
  - intros H. unfold Re.finditer.
    rewrite finditer_blank by now apply strip_blank.
    simpl fold_left. unfold MessageParser.parse_finish.
    rewrite drop_0, H. simpl.
    now destruct (0 <? String.length message).
Qed.

Lemma parse_fold_forall (P : Block -> Prop) (message : string) :
  (forall s, PyStr.truthy (PyStr.strip s) = true ->
             P (TextBlock (PyStr.strip s) false)) ->
  forall ms st,
    Forall (fun m => P (span_block m)) ms ->
    Forall P (fst st) ->
    Forall P (fst (fold_left (MessageParser.parse_step message) ms st)).
Proof.
  intros Htext. induction ms as [|m ms IH]; intros st Hms Hst; [exact Hst|].
  inversion Hms as [|? ? Hm Hms']; subst.
  simpl. apply IH; [exact Hms'|].
  destruct st as [blocks last_end]. unfold MessageParser.parse_step.
  simpl in Hst.
  destruct (last_end <? Re.m_start m);
    [destruct (PyStr.truthy _) eqn:E|]; simpl;
    repeat (apply Forall_app; split); auto.
Qed.

Lemma parse_forall (P : Block -> Prop) (message : string) :
  (forall s, PyStr.truthy (PyStr.strip s) = true ->
             P (TextBlock (PyStr.strip s) false)) ->
  Forall (fun m => P (span_block m)) (Re.finditer Re.tool_pattern message) ->
  Forall P (MessageParser.parse_assistant_message message).
Proof.
  intros Htext Hms.
  unfold MessageParser.parse_assistant_message, MessageParser.parse_loop.
  pose proof (parse_fold_forall P message Htext _ ([], 0) Hms (Forall_nil _))
    as H.
  destruct (fold_left _ _ _) as [blocks last_end]. simpl in H.
  unfold MessageParser.parse_finish.
  assert (H' : Forall P
                 (if last_end <? String.length message
                  then if PyStr.truthy
                            (PyStr.strip (PyStr.drop last_end message))
                       then (blocks
                              ++ [TextBlock
                                    (PyStr.strip (PyStr.drop last_end message))
                                    false])%list
                       else blocks
                  else blocks)).
  { destruct (last_end <? String.length message); [|exact H].
    destruct (PyStr.truthy _) eqn:E; [|exact H].
    apply Forall_app. split; [exact H|]. constructor; auto. }
  destruct (if last_end <? String.length message then _ else _);
    [|exact H'].
  destruct (PyStr.truthy (PyStr.strip message)) eqn:E; constructor; auto.
Qed.

(** X2: every text segment the parser returns is non-empty and carries
    no white space at either end. *)
Theorem parse_text_trimmed (message : string) :
  Forall text_trimmed (MessageParser.parse_assistant_message message).
Proof.
  apply parse_forall.
  - intros s H. simpl. split; [exact H | apply strip_strip].
  - apply Forall_forall. intros m _. exact I.
Qed.

Lemma finditer_from_name (s : string) :
  forall pos skip m,
    In m (Re.finditer_from Re.tool_pattern s pos skip) ->
    In (Re.group1 m) Re.tool_names.
Proof.
  induction s as [|c s IH]; intros pos skip m Hin; simpl in Hin; [easy|].
  destruct skip as [|k]; [|eapply IH; eauto].
  destruct (Re.tool_pattern (String c s)) as [[[g1 g2] len]|] eqn:E;
    [|eapply IH; eauto].
  destruct Hin as [<- | Hin]; [|eapply IH; eauto].
  apply match_alt_name in E. simpl. tauto.
Qed.

Lemma parse_fold_tools (message : string) :
  forall ms st,
    filter is_tool_use
      (fst (fold_left (MessageParser.parse_step message) ms st))
    = (filter is_tool_use (fst st) ++ map span_block ms)%list.
Proof.
  induction ms as [|m ms IH]; intros st; simpl; [now rewrite app_nil_r|].
  rewrite IH. destruct st as [blocks last_end].
  unfold MessageParser.parse_step. simpl.
  destruct (last_end <? Re.m_start m);
    [destruct (PyStr.truthy _)|];
    rewrite ?filter_app; simpl; rewrite ?app_nil_r, <- ?app_assoc;
    reflexivity.
Qed.

(** X3: the tool invocations the parser returns are the complete tool
    spans of the buffer, one invocation for each span and in the order of
    the spans, each with the name of its tag and the parameters parsed
    from its trimmed body; every name is one of the five tools. *)
Theorem parse_tools_are_spans (message : string) :
  filter is_tool_use (MessageParser.parse_assistant_message message)
  = map span_block (Re.finditer Re.tool_pattern message)
  /\ Forall known_tool (MessageParser.parse_assistant_message message).
Proof.
  split.
  - unfold MessageParser.parse_assistant_message, MessageParser.parse_loop.
    pose proof (parse_fold_tools message
                  (Re.finditer Re.tool_pattern message) ([], 0)) as H.
    destruct (fold_left _ _ _) as [blocks last_end]. simpl in H.
    destruct (parse_finish_shape message blocks last_end) as [tl [-> Htl]].
    rewrite filter_app, H.
    destruct Htl as [-> | [c ->]]; simpl; now rewrite app_nil_r.
  - apply parse_forall.
    + intros s _. exact I.
    + apply Forall_forall. intros m Hin. simpl.
      now apply finditer_from_name in Hin.
Qed.

End ParserShape.

Section ParserAlternation.

Lemma head_is_text_app (l : list Block) (b : Block) :
  l <> [] -> head_is_text (l ++ [b]) = head_is_text l.
Proof. destruct l; [congruence | reflexivity]. Qed.

Lemma no_adjacent_text_tool (l : list Block) (n : string) (p : PyDict.t)
    (q : bool) :
  no_adjacent_text (l ++ [ToolUseBlock n p q]) = no_adjacent_text l.
Proof.
  induction l as [|b l IH]; [reflexivity|].
  cbn [app no_adjacent_text]. rewrite IH. f_equal. f_equal. f_equal.
  destruct l; reflexivity.
Qed.

Lemma no_adjacent_text_tool_text (l : list Block) (n : string) (p : PyDict.t)
    (q : bool) (b : Block) :
  no_adjacent_text (l ++ [ToolUseBlock n p q; b]) = no_adjacent_text l.
Proof.
  induction l as [|x l IH].
  - simpl. now rewrite andb_false_r.
  - cbn [app no_adjacent_text]. rewrite IH. f_equal. f_equal. f_equal.
    destruct l; reflexivity.
Qed.

(** Appending a text block to a list that is empty or ends with a tool
    invocation. *)
Lemma no_adjacent_text_after_tool (l : list Block) (c : string) (q : bool) :
  l = [] \/ (exists front n p, l = (front ++ [ToolUseBlock n p false])%list) ->
  no_adjacent_text (l ++ [TextBlock c q]) = no_adjacent_text l.
Proof.
  intros [-> | (front & n & p & ->)]; [reflexivity|].
  rewrite <- app_assoc. simpl app.
  now rewrite no_adjacent_text_tool_text, no_adjacent_text_tool.
Qed.

Lemma parse_fold_alternates (message : string) :
  forall ms st,
    (fst st = []
     \/ exists front n p, fst st = (front ++ [ToolUseBlock n p false])%list) ->
    no_adjacent_text (fst st) = true ->
    no_adjacent_text
      (fst (fold_left (MessageParser.parse_step message) ms st)) = true.
Proof.
  induction ms as [|m ms IH]; intros st Hend Hst; [exact Hst|].
  simpl. apply IH.
  - right. destruct st as [blocks last_end]. unfold MessageParser.parse_step.
    eexists _, _, _. simpl. reflexivity.
  - destruct st as [blocks last_end]. unfold MessageParser.parse_step.
    simpl in *. rewrite no_adjacent_text_tool.
    destruct (last_end <? Re.m_start m); [|exact Hst].
    destruct (PyStr.truthy _); [|exact Hst].
    now rewrite no_adjacent_text_after_tool.
Qed.

(** X4: the parser never returns two text segments in a row: the text
    between two tool spans, before the first or after the last is one
    segment. *)
Theorem parse_text_between_tools (message : string) :
  no_adjacent_text (MessageParser.parse_assistant_message message) = true.
Proof.
  unfold MessageParser.parse_assistant_message, MessageParser.parse_loop.
  pose proof (parse_fold_alternates message
                (Re.finditer Re.tool_pattern message) ([], 0)
                (or_introl eq_refl) eq_refl) as H.
  pose proof (parse_fold_shape message
                (Re.finditer Re.tool_pattern message) ([], 0)) as Hshape.
  destruct (fold_left _ _ _) as [blocks last_end]. simpl in H.
  assert (Hend : blocks = []
                 \/ exists front n p,
                      blocks = (front ++ [ToolUseBlock n p false])%list).
  { destruct Hshape as [[_ Hst] | Hex]; [left; now inversion Hst|].
    right. exact Hex. }
  unfold MessageParser.parse_finish.
  destruct (last_end <? String.length message).
  - destruct (PyStr.truthy (PyStr.strip (PyStr.drop last_end message))).
    + pose proof (no_adjacent_text_after_tool blocks
                    (PyStr.strip (PyStr.drop last_end message)) false Hend)
        as Happ.
      destruct (blocks ++ _)%list eqn:E.
      * destruct blocks; discriminate.
      * rewrite Happ. exact H.
    + destruct blocks; [|exact H].
      now destruct (PyStr.truthy (PyStr.strip message)).
  - destruct blocks; [|exact H].
    now destruct (PyStr.truthy (PyStr.strip message)).
Qed.

(** X5: when the parse of a buffer holds a tool invocation, so does the
    parse of every buffer that extends it: text that arrives later can
    change which spans are found, it cannot leave none. *)
Theorem tool_call_never_vanishes (buffer ext : string) :
  existsb is_tool_use (MessageParser.parse_assistant_message buffer) = true ->
  existsb is_tool_use (MessageParser.parse_assistant_message (buffer ++ ext))
  = true.
Proof.
  intros H.
  destruct (existsb is_tool_use
              (MessageParser.parse_assistant_message (buffer ++ ext)))
    eqn:E; [reflexivity|].
  exfalso.
  assert (Hf : filter is_tool_use
                 (MessageParser.parse_assistant_message (buffer ++ ext)) = []).
  { destruct (filter is_tool_use _) as [|b l] eqn:F; [reflexivity|].
    assert (Hin : In b (filter is_tool_use
                          (MessageParser.parse_assistant_message
                             (buffer ++ ext))))
      by (rewrite F; now left).
    apply filter_In in Hin.
    assert (existsb is_tool_use
              (MessageParser.parse_assistant_message (buffer ++ ext)) = true)
      by (apply existsb_exists; eauto).
    congruence. }
  apply parse_prefix_no_tools in Hf.
  apply existsb_exists in H. destruct H as [b [Hin Hb]].
  apply (proj1 (Forall_forall _ _) Hf) in Hin. congruence.
Qed.

End ParserAlternation.

Lemma tool_call_never_vanishes_witness :
  existsb is_tool_use
    (MessageParser.parse_assistant_message "<list_files></list_files>") = true
  /\ existsb is_tool_use
       (MessageParser.parse_assistant_message
          ("<list_files></list_files>" ++ " and more")) = true.
Proof.
  assert (H : existsb is_tool_use
                (MessageParser.parse_assistant_message
                   "<list_files></list_files>") = true)
    by reflexivity.
  split; [exact H|].
  exact (tool_call_never_vanishes "<list_files></list_files>" " and more" H).
Defined.

Section ParamFacts.

Lemma get_set_same (d : PyDict.t) (k v default : string) :
  PyDict.get (PyDict.set d k v) k default = v.
Proof.
  induction d as [|[k' v'] d IH]; simpl.
  - now rewrite String.eqb_refl.
  - destruct (String.eqb k' k) eqn:E; simpl; rewrite E; auto.
Qed.

Lemma get_set_other (d : PyDict.t) (k k' v default : string) :
  k' <> k ->
  PyDict.get (PyDict.set d k v) k' default = PyDict.get d k' default.
Proof.
  intros Hne. induction d as [|[k0 v0] d IH]; simpl.
  - destruct (String.eqb_spec k k'); [congruence | reflexivity].
  - destruct (String.eqb_spec k0 k) as [->|Hk]; simpl.
    + destruct (String.eqb_spec k k'); [congruence | reflexivity].
    + destruct (String.eqb k0 k'); [reflexivity | exact IH].
Qed.

Lemma keys_set (d : PyDict.t) (k v : string) :
  map fst (PyDict.set d k v)
  = if existsb (String.eqb k) (map fst d) then map fst d
    else (map fst d ++ [k])%list.
Proof.
  induction d as [|[k' v'] d IH]; simpl; [reflexivity|].
  rewrite (String.eqb_sym k k').
  destruct (String.eqb k' k) eqn:E; simpl; [reflexivity|].
  rewrite IH. now destruct (existsb _ _).
Qed.

Lemma set_nodup (d : PyDict.t) (k v : string) :
  NoDup (map fst d) -> NoDup (map fst (PyDict.set d k v)).
Proof.
  intros H. rewrite keys_set.
  destruct (existsb (String.eqb k) (map fst d)) eqn:E; [exact H|].
  apply NoDup_app; [exact H | repeat constructor; easy |].
  intros x Hx [-> | []].
  assert (existsb (String.eqb x) (map fst d) = true).
  { apply existsb_exists. exists x. split; [exact Hx|].
    apply String.eqb_refl. }
  congruence.
Qed.

Lemma set_forall (P : string * string -> Prop) (d : PyDict.t)
    (k v : string) :
  P (k, v) -> Forall P d -> Forall P (PyDict.set d k v).
Proof.
  intros Hkv. induction 1 as [|[k' v'] d Hx Hd IH]; simpl.
  - repeat constructor. exact Hkv.
  - destruct (String.eqb_spec k' k) as [->|]; constructor; auto.
Qed.

Lemma parse_params_fold (content : string) :
  MessageParser.parse_params content
  = fold_left param_step (Re.finditer Re.param_pattern content) PyDict.empty.
Proof. reflexivity. Qed.

Lemma fold_get_absent (ms : list Re.Match) (k default : string) :
  forall d,
    Forall (fun m => Re.group1 m <> k) ms ->
    PyDict.get (fold_left param_step ms d) k default = PyDict.get d k default.
Proof.
  induction ms as [|m ms IH]; intros d H; [reflexivity|].
  inversion H as [|? ? Hm Hms]; subst. simpl.
  rewrite IH by exact Hms. unfold param_step.
  apply get_set_other. congruence.
Qed.

(** X6: when a parameter tag occurs more than once in the body of a
    tool span, the last occurrence gives the value, trimmed. *)
Theorem params_last_wins (content default : string)
    (front back : list Re.Match) (m : Re.Match) :
  Re.finditer Re.param_pattern content = (front ++ m :: back)%list ->
  Forall (fun m' => Re.group1 m' <> Re.group1 m) back ->
  PyDict.get (MessageParser.parse_params content) (Re.group1 m) default
  = PyStr.strip (Re.group2 m).
Proof.
  intros Hms Hback. rewrite parse_params_fold, Hms, fold_left_app.
  simpl. rewrite fold_get_absent by exact Hback.
  unfold param_step. apply get_set_same.
Qed.

Lemma params_get_absent (content key default : string) :
  Forall (fun m => Re.group1 m <> key)
    (Re.finditer Re.param_pattern content) ->
  PyDict.get (MessageParser.parse_params content) key default = default.
Proof.
  intros H. rewrite parse_params_fold. now rewrite fold_get_absent.
Qed.

(** X7: a tool span without a [path] parameter makes [execute_tool] call
    [_read_file] with the empty path and [_list_files] with ["."]: the
    defaults of [params.get] in the dispatcher. *)
Theorem missing_path_defaults (FS : Type) (tools : ToolExecutor.Tools FS)
    (content : string) (fs : FS) :
  Forall (fun m => Re.group1 m <> "path")
    (Re.finditer Re.param_pattern content) ->
  ToolExecutor.dispatch tools "read_file"
    (MessageParser.parse_params content) fs
  = ToolExecutor._read_file tools EmptyString fs
  /\ ToolExecutor.dispatch tools "list_files"
       (MessageParser.parse_params content) fs
     = ToolExecutor._list_files tools "." fs.
Proof.
  intros H. unfold ToolExecutor.dispatch. simpl.
  now rewrite !params_get_absent by exact H.
Qed.

Lemma word_run_word (s : string) : all_chars PyStr.isword (Re.word_run s) = true.
Proof.
  induction s as [|c s IH]; [reflexivity|].
  simpl. destruct (PyStr.isword c) eqn:E; [|reflexivity].
  simpl. now rewrite E.
Qed.

Lemma param_pattern_key (s g1 g2 : string) (len : nat) :
  Re.param_pattern s = Some (g1, g2, len) ->
  PyStr.truthy g1 = true /\ all_chars PyStr.isword g1 = true.
Proof.
  unfold Re.param_pattern.
  destruct s as [|c s]; [discriminate|].
  destruct (ascii_dec c "<") as [->|Hc].
  - destruct (PyStr.truthy (Re.word_run s)) eqn:E; [|discriminate].
    destruct (Re.match_tag _ _) as [[g len']|]; [|discriminate].
    intros H. inversion H; subst. split; [exact E | apply word_run_word].
  - destruct c as [[] [] [] [] [] [] [] []]; try discriminate.
    congruence.
Qed.

Lemma finditer_from_matched (p : Re.pattern) (s : string) :
  forall pos skip m,
    In m (Re.finditer_from p s pos skip) ->
    exists t len, p t = Some (Re.group1 m, Re.group2 m, len).
Proof.
  induction s as [|c s IH]; intros pos skip m Hin; simpl in Hin; [easy|].
  destruct skip as [|k]; [|eapply IH; eauto].
  destruct (p (String c s)) as [[[g1 g2] len]|] eqn:E; [|eapply IH; eauto].
  destruct Hin as [<- | Hin]; [|eapply IH; eauto].
  simpl. eauto.
Qed.

Lemma fold_params_ok (ms : list Re.Match) :
  forall d,
    Forall (fun m => PyStr.truthy (Re.group1 m) = true
                     /\ all_chars PyStr.isword (Re.group1 m) = true) ms ->
    Forall param_ok d /\ NoDup (map fst d) ->
    Forall param_ok (fold_left param_step ms d)
    /\ NoDup (map fst (fold_left param_step ms d)).
Proof.
  induction ms as [|m ms IH]; intros d Hms Hd; [exact Hd|].
  inversion Hms as [|? ? [Ht Hw] Hms']; subst. simpl.
  apply IH; [exact Hms'|]. destruct Hd as [Hd Hn]. split.
  - unfold param_step. apply set_forall; [|exact Hd].
    unfold param_ok. simpl. auto using strip_strip.
  - now apply set_nodup.
Qed.

(** X8: in the parameters of a tool invocation no key occurs twice, every
    key is a non-empty run of word characters and every value is
    trimmed. *)
Theorem params_well_formed (content : string) :
  NoDup (map fst (MessageParser.parse_params content))
  /\ Forall param_ok (MessageParser.parse_params content).
Proof.
  rewrite parse_params_fold.
  destruct (fold_params_ok (Re.finditer Re.param_pattern content)
              PyDict.empty) as [H1 H2].
  - apply Forall_forall. intros m Hin.
    apply finditer_from_matched in Hin. destruct Hin as (t & len & H).
    now apply param_pattern_key in H.
  - split; constructor.
  - auto.
Qed.

End ParamFacts.

Lemma missing_path_defaults_witness :
  Forall (fun m => Re.group1 m <> "path")
    (Re.finditer Re.param_pattern "<command>ls</command>")
  /\ ToolExecutor.dispatch Scenario.tools "read_file"
       (MessageParser.parse_params "<command>ls</command>") tt
     = ToolExecutor._read_file Scenario.tools EmptyString tt
  /\ ToolExecutor.dispatch Scenario.tools "list_files"
       (MessageParser.parse_params "<command>ls</command>") tt
     = ToolExecutor._list_files Scenario.tools "." tt.
Proof.
  assert (H : Forall (fun m => Re.group1 m <> "path")
                (Re.finditer Re.param_pattern "<command>ls</command>")).
  { apply Forall_forall. intros m Hm. vm_compute in Hm.
    destruct Hm as [<- | []]. discriminate. }
  split; [exact H|].
  exact (missing_path_defaults unit Scenario.tools "<command>ls</command>"
           tt H).
Defined.

Lemma params_last_wins_witness :
  Re.finditer Re.param_pattern "<path>a</path><path>b</path>"
  = ([Runs.path_a] ++ Runs.path_b :: [])%list
  /\ Forall (fun m' => Re.group1 m' <> Re.group1 Runs.path_b) []
  /\ PyDict.get (MessageParser.parse_params "<path>a</path><path>b</path>")
       (Re.group1 Runs.path_b) EmptyString
     = PyStr.strip (Re.group2 Runs.path_b).
Proof.
  assert (H1 : Re.finditer Re.param_pattern "<path>a</path><path>b</path>"
               = ([Runs.path_a] ++ Runs.path_b :: [])%list)
    by (vm_compute; reflexivity).
  assert (H2 : Forall (fun m' => Re.group1 m' <> Re.group1 Runs.path_b) [])
    by constructor.
  split; [exact H1|]. split; [exact H2|].
  exact (params_last_wins "<path>a</path><path>b</path>" EmptyString
           [Runs.path_a] [] Runs.path_b H1 H2).
Defined.

(** ** The effects of a turn *)

Section TurnEffects.

Variable FS : Type.
Variable env : Env FS.

Lemma results_app (a b : list Event) :
  results (a ++ b)%list = (results a ++ results b)%list.
Proof.
  induction a as [|e a IH]; [reflexivity|].
  destruct e as [| | [] |]; simpl; now rewrite IH.
Qed.

Lemma inputs_app (a b : list Event) :
  inputs (a ++ b)%list = (inputs a ++ inputs b)%list.
Proof.
  induction a as [|e a IH]; [reflexivity|].
  destruct e; simpl; now rewrite IH.
Qed.

Lemma requests_app (a b : list Event) :
  requests (a ++ b)%list = (requests a ++ requests b)%list.
Proof.
  induction a as [|e a IH]; [reflexivity|].
  destruct e; simpl; now rewrite IH.
Qed.

(** A call that follows steps which asked the operator nothing. *)
Lemma presented_after (self self1 : Task) (w w1 : World FS)
    (d1 : list Event) (r : Res FS unit) :
  presented env self1 w1 r ->
  trace w1 = (trace w ++ d1)%list ->
  requests d1 = [] ->
  inputs d1 = [] ->
  n_requests w1 = n_requests w ->
  n_inputs w1 = n_inputs w ->
  conversation_history self1 = conversation_history self ->
  assistant_message_content (task_state self1)
  = assistant_message_content (task_state self) ->
  is_streaming (task_state self1) = is_streaming (task_state self) ->
  next_task self1 = next_task self ->
  user_message_content (task_state self1)
  = (user_message_content (task_state self) ++ results d1)%list ->
  Forall (fun b => In b (assistant_message_content (task_state self)))
    (visited d1) ->
  presented env self w r.
Proof.
  intros (self' & w' & d2 & Hr & Htr & Hq & Hn & Hh & Hb & Hs & Hu & Hv & Hp)
         Etr Eq Ei En Eni Eh Eb Es Ent Eu Ev.
  exists self', w', (d1 ++ d2)%list.
  split; [exact Hr|].
  split; [now rewrite Htr, Etr, app_assoc|].
  split; [now rewrite requests_app, Eq, Hq|].
  split; [congruence|]. split; [congruence|]. split; [congruence|].
  split; [congruence|].
  split; [now rewrite Hu, Eu, results_app, app_assoc|].
  split.
  - rewrite visited_app. apply Forall_app. split; [exact Ev|].
    now rewrite <- Eb.
  - unfold prompt_outcome in *. rewrite inputs_app, Ei. simpl.
    rewrite <- Eni, <- Ent. exact Hp.
Qed.

Lemma advance_presented (recurse : Task -> World FS -> Res FS unit)
    (block : Block) (rest' : list Block) (self : Task) (w : World FS) :
  (forall self1 w1,
      abort (task_state self1) = false ->
      Forall nonpartial (assistant_message_content (task_state self1)) ->
      rest' = skipn (current_streaming_content_index (task_state self1))
                (assistant_message_content (task_state self1)) ->
      presented env self1 w1 (recurse self1 w1)) ->
  abort (task_state self) = false ->
  Forall nonpartial (assistant_message_content (task_state self)) ->
  partial block = false ->
  current_streaming_content_index (task_state self)
  < length (assistant_message_content (task_state self)) ->
  skipn (S (current_streaming_content_index (task_state self)))
    (assistant_message_content (task_state self)) = rest' ->
  presented env self w (advance recurse block self w).
Proof.
  destruct self as [[st idx blocks umc rdy ab] hist nt].
  simpl. intros IH Hab Hnp Hpart Hlt Hrest. subst ab.
  unfold advance. rewrite Hpart. cbn [negb].
  cbn [task_state current_streaming_content_index assistant_message_content].
  rewrite Nat.add_1_r.
  destruct (S idx <? length blocks) eqn:E2.
  - eapply (presented_after _ _ w w []).
    + apply IH; destruct (idx =? length blocks - 1); simpl; auto.
    + now rewrite app_nil_r.
    + reflexivity.
    + reflexivity.
    + reflexivity.
    + reflexivity.
    + destruct (idx =? length blocks - 1); reflexivity.
    + destruct (idx =? length blocks - 1); reflexivity.
    + destruct (idx =? length blocks - 1); reflexivity.
    + destruct (idx =? length blocks - 1); reflexivity.
    + simpl. rewrite app_nil_r.
      destruct (idx =? length blocks - 1); reflexivity.
    + constructor.
  - apply Nat.ltb_ge in E2.
    eexists _, w, []. split; [reflexivity|].
    destruct (idx =? length blocks - 1); simpl; rewrite ?app_nil_r;
      repeat split; auto.
Qed.

Lemma present_from_presented (rest : list Block) :
  forall (self : Task) (w : World FS),
    abort (task_state self) = false ->
    Forall nonpartial (assistant_message_content (task_state self)) ->
    rest = skipn (current_streaming_content_index (task_state self))
             (assistant_message_content (task_state self)) ->
    presented env self w (present_from env rest self w).
Proof.
  induction rest as [|block rest' IH];
    intros [[st idx blocks umc rdy ab] hist nt] [f nr ni tr];
    simpl; intros Hab Hnp Hrest; subst ab.
  - destruct (length blocks <=? idx) eqn:E.
    + apply Nat.leb_le in E.
      eexists _, _, []. split; [reflexivity|].
      destruct st; simpl; rewrite ?app_nil_r; repeat split; auto.
    + apply Nat.leb_gt in E.
      destruct (skipn_nonempty blocks idx E) as [b [r Hbr]]. congruence.
  - destruct (length blocks <=? idx) eqn:E.
    + apply Nat.leb_le in E.
      eexists _, _, []. split; [reflexivity|].
      destruct st; simpl; rewrite ?app_nil_r; repeat split; auto.
    + apply Nat.leb_gt in E. symmetry in Hrest.
      destruct (skipn_cons blocks idx block rest' Hrest) as [Hrest' Hin].
      pose proof (proj1 (Forall_forall _ _) Hnp block Hin) as Hpart.
      unfold nonpartial in Hpart.
      destruct block as [c p | name params p]; simpl in Hpart; subst p.
      * eapply (presented_after _ _ _ _ [EvVisit idx (TextBlock c false)]).
        -- eapply (advance_presented _ _ rest'); simpl; auto.
        -- reflexivity.
        -- reflexivity.
        -- reflexivity.
        -- reflexivity.
        -- reflexivity.
        -- reflexivity.
        -- reflexivity.
        -- reflexivity.
        -- reflexivity.
        -- simpl. now rewrite app_nil_r.
        -- simpl. repeat constructor. exact Hin.
      * destruct (name =? "attempt_completion")%string eqn:Ename.
        -- unfold present_completion, read_input. cbn [n_inputs log trace].
           set (line := input env ni).
           set (self' := if existsb _ _ then _ else _).
           assert (Hs : abort (task_state self') = true
                        /\ is_streaming (task_state self') = st
                        /\ user_message_content (task_state self') = umc
                        /\ assistant_message_content (task_state self')
                           = blocks
                        /\ conversation_history self' = hist
                        /\ next_task self' = handoff line nt).
           { subst self'. unfold handoff.
             destruct (existsb _ _); [|destruct (PyStr.truthy _)];
               repeat split. }
           destruct Hs as (Ha & Hst & Hu & Hb & Hh & Hnt).
           eexists _, _,
             [EvVisit idx (ToolUseBlock name params false); EvInput line].
           split; [reflexivity|]. unfold prompt_outcome. simpl.
           rewrite Ha, Hst, Hu, Hb, Hh, Hnt, app_nil_r.
           split; [now rewrite <- app_assoc|].
           repeat split; auto.
        -- destruct (execute_tool_returned FS (tools env) name params f)
             as [result [fs' Hex]].
           rewrite Hex.
           eapply (presented_after _ _ _ _
                     [EvVisit idx (ToolUseBlock name params false);
                      EvExecute (ToolUseBlock name params false) result]).
           ++ eapply (advance_presented _ _ rest'); simpl; auto.
           ++ simpl. now rewrite <- app_assoc.
           ++ reflexivity.
           ++ reflexivity.
           ++ reflexivity.
           ++ reflexivity.
           ++ reflexivity.
           ++ reflexivity.
           ++ reflexivity.
           ++ reflexivity.
           ++ reflexivity.
           ++ simpl. repeat constructor. exact Hin.
Qed.

Lemma _present_content_presented (self : Task) (w : World FS) :
  abort (task_state self) = false ->
  Forall nonpartial (assistant_message_content (task_state self)) ->
  presented env self w (_present_content env self w).
Proof.
  intros Hab Hnp. unfold _present_content.
  now apply present_from_presented.
Qed.

Lemma parsed_in (buffer : string) (tr : list Event) :
  Forall (fun b => In b (MessageParser.parse_assistant_message buffer))
    (visited tr) ->
  Forall parsed (visited tr).
Proof.
  intros H. eapply Forall_impl; [|exact H].
  intros b Hin. now exists buffer.
Qed.

Lemma stream_loop_streamed (cs : list StreamChunk) :
  forall (msg : string) (self : Task) (w : World FS),
    abort (task_state self) = false ->
    length (assistant_message_content (task_state self))
    <= current_streaming_content_index (task_state self) ->
    streamed env self w (stream_loop env cs msg self w).
Proof.
  induction cs as [|chunk rest IH]; intros msg self w Hab Hlen.
  - exists msg, false, self, w, [].
    unfold prompt_outcome. rewrite Hab, !app_nil_r.
    repeat split; auto.
  - cbn [stream_loop].
    destruct (text_delta chunk) as [text|]; [|now apply IH].
    set (msg1 := msg ++ text).
    set (self1 := set_assistant_content _ self).
    assert (Hself1 : abort (task_state self1) = false
                     /\ assistant_message_content (task_state self1)
                        = MessageParser.parse_assistant_message msg1
                     /\ conversation_history self1 = conversation_history self
                     /\ next_task self1 = next_task self
                     /\ user_message_content (task_state self1)
                        = user_message_content (task_state self))
      by (destruct self as [[? ? ? ? ? ?] ? ?]; simpl in *; repeat split; auto).
    destruct Hself1 as (Hab1 & Hb1 & Hh1 & Hn1 & Hu1).
    destruct (_present_content_presented self1 w Hab1)
      as (self2 & w2 & d2 & Hr & Htr & Hq & Hnr & Hh & Hb & _ & Hu & Hv & Hp).
    { rewrite Hb1. apply parse_nonpartial. }
    rewrite Hr. cbn [bind].
    rewrite Hb1 in Hv. apply parsed_in in Hv.
    unfold prompt_outcome in Hp.
    destruct (abort (task_state self2)) eqn:Hab2.
    + exists msg1, true, self2, w2, d2.
      unfold prompt_outcome. rewrite Hab2.
      repeat split; try tauto; congruence.
    + destruct Hp as (Hni & Hi & Hnt & Hlen2).
      destruct (IH msg1 self2 w2 Hab2 Hlen2)
        as (msg' & broke & self' & w' & d' & Hr' & Htr' & Hq' & Hnr' & Hh'
            & Hu' & Hv' & Hp').
      exists msg', broke, self', w', (d2 ++ d')%list.
      split; [exact Hr'|].
      split; [now rewrite Htr', Htr, app_assoc|].
      split; [now rewrite requests_app, Hq, Hq'|].
      split; [congruence|]. split; [congruence|].
      split; [now rewrite Hu', Hu, Hu1, results_app, app_assoc|].
      split; [rewrite visited_app; now apply Forall_app|].
      unfold prompt_outcome in *. rewrite inputs_app, Hi. simpl.
      rewrite <- Hni, <- Hn1, <- Hnt. exact Hp'.
Qed.

Lemma filter_existsb {A : Type} (f : A -> bool) (l : list A) :
  match filter f l with [] => existsb f l = false | _ :: _ => existsb f l = true end.
Proof.
  induction l as [|x l IH]; [reflexivity|].
  simpl. destruct (f x); simpl; [reflexivity | exact IH].
Qed.

Lemma make_request_effects (uc : list ContentItem) (self : Task)
    (w : World FS) :
  let messages := request_messages uc self in
  let reply := create_message_stream env (n_requests w) messages in
  let text := reply_text (chunks reply) in
  abort (task_state self) = false ->
  exists did_end self' w' delta,
    _make_request env uc self w = Ok did_end self' w'
    /\ trace w' = (trace w ++ EvRequest messages :: delta)%list
    /\ requests delta = []
    /\ user_message_content (task_state self') = results delta
    /\ Forall parsed (visited delta)
    /\ prompt_outcome env self w self' w' delta
    /\ conversation_history self'
       = (if completed reply self' && PyStr.truthy text
          then (conversation_history self ++ [mkMessage "assistant" text])%list
          else conversation_history self)
    /\ did_end
       = negb (completed reply self' && PyStr.truthy text
               && negb (existsb is_tool_use
                          (assistant_message_content (task_state self'))))
    /\ (completed reply self' = true ->
        assistant_message_content (task_state self')
        = MessageParser.parse_assistant_message text)
    /\ is_streaming (task_state self') = false.
Proof.
  intros messages reply text Hab.
  unfold _make_request. rewrite Hab.
  fold (request_messages uc self). fold messages.
  cbn zeta.
  replace (conversation_history
             (set_ready false
                (set_user_content []
                   (set_assistant_content [] (set_index 0 self)))))
    with (conversation_history self)
    by (destruct self as [[? ? ? ? ? ?] ? ?]; reflexivity).
  fold (request_messages uc self). fold messages. fold reply.
  set (self0 := set_is_streaming true _).
  set (w0 := log (EvRequest messages) _).
  assert (Hpre0 : present_pre (trace w ++ [EvRequest messages])%list []
                    self0 w0).
  { destruct self as [[? ? ? ? ? ?] ? ?]. simpl in Hab.
    unfold present_pre. simpl. rewrite app_nil_r.
    repeat split; auto; constructor. }
  assert (Hself0 : conversation_history self0 = conversation_history self
                   /\ next_task self0 = next_task self
                   /\ user_message_content (task_state self0) = []
                   /\ assistant_message_content (task_state self0) = []
                   /\ abort (task_state self0) = false
                   /\ current_streaming_content_index (task_state self0) = 0)
    by (destruct self as [[? ? ? ? ? ?] ? ?]; simpl in *; repeat split; auto).
  destruct Hself0 as (Hh0 & Hn0 & Hu0 & Hb0 & Hab0 & Hi0).
  assert (Hw0 : trace w0 = (trace w ++ [EvRequest messages])%list
                /\ n_inputs w0 = n_inputs w) by (split; reflexivity).
  destruct Hw0 as (Htr0 & Hni0).
  destruct (stream_loop_spec FS env (chunks reply) EmptyString self0 w0 _ []
              Hpre0)
    as (msg' & broke & self1 & w1 & acc1 & Hr1 & HtrO & Htt1 & Hnp1
        & Hs1 & _ & _ & Hbr1 & Hok1 & _).
  destruct (stream_loop_streamed (chunks reply) EmptyString self0 w0 Hab0)
    as (msg2 & broke2 & self2 & w2 & d1 & Hr2 & Htr1 & Hq1 & _ & Hh1 & Hu1
        & Hv1 & Hp1).
  { rewrite Hb0, Hi0. simpl. lia. }
  rewrite Hr1 in Hr2. inversion Hr2; subst msg2 broke2 self2 w2. clear Hr2.
  rewrite Hr1. cbn [bind]. cbn [append] in Hok1. fold text in Hok1.
  rewrite Hu0 in Hu1. simpl in Hu1. rewrite Hh0 in Hh1.
  assert (Hp1' : prompt_outcome env self w self1 w1 d1).
  { unfold prompt_outcome in *. rewrite <- Hni0, <- Hn0. exact Hp1. }
  clear Hp1.
  assert (Htrace : forall d,
             ((trace w ++ [EvRequest messages]) ++ d
              = trace w ++ EvRequest messages :: d)%list)
    by (intros; now rewrite <- app_assoc).
  rewrite Htr0 in Htr1. rewrite Htrace in Htr1.
  destruct self1 as [[st1 idx1 blocks1 umc1 rdy1 ab1] hist1 nt1].
  unfold completed, succeeded.
  cbn [task_state abort current_streaming_content_index
       assistant_message_content is_streaming conversation_history
       next_task user_message_content] in *.
  subst broke.
  destruct ab1.
  - exists true. eexists _, w1, d1.
    split; [reflexivity|]. simpl.
    split; [exact Htr1|]. split; [exact Hq1|]. split; [exact Hu1|].
    split; [exact Hv1|]. split; [exact Hp1'|]. split; [exact Hh1|].
    split; [reflexivity|]. split; [discriminate | reflexivity].
  - destruct (failure reply) as [e|] eqn:Ef.
    + exists true. eexists _, w1, d1.
      split; [reflexivity|]. simpl.
      split; [exact Htr1|]. split; [exact Hq1|]. split; [exact Hu1|].
      split; [exact Hv1|]. split; [exact Hp1'|]. split; [exact Hh1|].
      split; [reflexivity|]. split; [discriminate | reflexivity].
    + cbn [set_is_streaming task_state abort current_streaming_content_index
           assistant_message_content is_streaming conversation_history
           next_task user_message_content user_message_content_ready
           set_assistant_content].
      destruct (Hok1 eq_refl) as (_ & Hmsg & Hblocks).
      assert (Hparse : blocks1 = MessageParser.parse_assistant_message msg').
      { destruct Hblocks as [Hp | [Hm Hp]]; [exact Hp|].
        rewrite Hp, Hb0, Hm. reflexivity. }
      clear Hblocks.
      rewrite (finalize_id blocks1 Hnp1).
      set (self2 := set_assistant_content blocks1 _).
      assert (Hpre2 : present_pre (trace w ++ [EvRequest messages])%list
                        acc1 self2 w1).
      { unfold present_pre. simpl. auto. }
      destruct (_present_content_spec FS env self2 w1 _ acc1 Hpre2)
        as (self3 & w3 & acc3 & Hr3 & _ & _ & Hb3 & Hs3 & _ & _
            & Hrd3 & _ & _).
      destruct (_present_content_presented self2 w1 eq_refl Hnp1)
        as (self4 & w4 & d3 & Hr4 & Htr3 & Hq3 & _ & Hh3 & _ & _ & Hu3
            & Hv3 & Hp3).
      rewrite Hr3 in Hr4. inversion Hr4; subst self4 w4. clear Hr4.
      rewrite Hr3. cbn [bind].
      rewrite (Hrd3 eq_refl). cbn [negb andb].
      assert (Hv3' : Forall parsed (visited d3)).
      { subst self2. simpl in Hv3. rewrite Hparse in Hv3.
        now apply parsed_in in Hv3. }
      assert (Hp3' : prompt_outcome env self w self3 w3 (d1 ++ d3)%list).
      { unfold prompt_outcome in *. rewrite inputs_app.
        destruct Hp1' as (Hni1 & Hi1 & Hnt1 & _). rewrite Hi1. simpl.
        subst self2. simpl in Hp3. rewrite <- Hni1, <- Hnt1. exact Hp3. }
      assert (Htr3' : trace w3
                      = (trace w ++ EvRequest messages :: d1 ++ d3)%list).
      { rewrite Htr3, Htr1, <- app_assoc. reflexivity. }
      assert (Hq3' : requests (d1 ++ d3)%list = [])
        by now rewrite requests_app, Hq1, Hq3.
      assert (Hu3' : user_message_content (task_state self3)
                     = results (d1 ++ d3)%list).
      { rewrite results_app, Hu3. subst self2. simpl. now rewrite Hu1. }
      assert (Hv13 : Forall parsed (visited (d1 ++ d3)%list))
        by (rewrite visited_app; now apply Forall_app).
      clear Hp3 Hv3 Hu3 Htr3 Hq3 Hpre2.
      destruct self3 as [[st3 idx3 blocks3 umc3 rdy3 ab3] hist3 nt3].
      cbn [task_state abort current_streaming_content_index
           assistant_message_content is_streaming conversation_history
           next_task user_message_content self2] in *.
      subst self2. simpl in Hb3, Hs3, Hh3. subst blocks3 st3 hist3 msg'.
      rewrite <- Hparse.
      destruct ab3.
      * exists true. eexists _, w3, (d1 ++ d3)%list.
        split; [reflexivity|]. simpl.
        split; [exact Htr3'|]. split; [exact Hq3'|]. split; [exact Hu3'|].
        split; [exact Hv13|]. split; [exact Hp3'|]. split; [exact Hh1|].
        split; [reflexivity|]. split; [discriminate | reflexivity].
      * pose proof (filter_existsb is_tool_use blocks1) as Hfe.
        cbn [set_history task_state assistant_message_content].
        destruct (PyStr.truthy text) eqn:Etext;
          [destruct (filter is_tool_use blocks1) eqn:Ef1|].
        -- exists false. eexists _, w3, (d1 ++ d3)%list.
           split; [reflexivity|]. simpl. rewrite Hfe. simpl.
           split; [exact Htr3'|]. split; [exact Hq3'|]. split; [exact Hu3'|].
           split; [exact Hv13|]. split; [exact Hp3'|].
           split; [now rewrite Hh1|].
           split; [reflexivity|]. split; reflexivity.
        -- exists true. eexists _, w3, (d1 ++ d3)%list.
           split; [reflexivity|]. simpl. rewrite Hfe. simpl.
           split; [exact Htr3'|]. split; [exact Hq3'|]. split; [exact Hu3'|].
           split; [exact Hv13|]. split; [exact Hp3'|].
           split; [now rewrite Hh1|].
           split; [reflexivity|]. split; reflexivity.
        -- exists true. eexists _, w3, (d1 ++ d3)%list.
           split; [reflexivity|]. simpl.
           split; [exact Htr3'|]. split; [exact Hq3'|]. split; [exact Hu3'|].
           split; [exact Hv13|]. split; [exact Hp3'|].
           split; [exact Hh1|].
           split; [reflexivity|]. split; reflexivity.
Qed.

Lemma content_text_single (s : string) : content_text [text_item s] = s.
Proof. unfold content_text. simpl. now destruct s. Qed.

Lemma handoff_some (line s : string) :
  handoff line None = Some s -> s = PyStr.strip line /\ PyStr.truthy s = true.
Proof.
  unfold handoff. destruct (existsb _ _); [discriminate|].
  destruct (PyStr.truthy (PyStr.strip line)) eqn:E; [|discriminate].
  intros H. inversion H; subst. auto.
Qed.

Lemma sent_by_later (history : list Message) (initial : string)
    (typed typed1 : list string) (replies0 : list string) (c1 : string)
    (ms : list Message) :
  sent_by (history ++ map (mkMessage "assistant") replies0)%list c1 typed1 ms ->
  user_content_source initial typed c1 ->
  (forall line, In line typed1 -> In line typed) ->
  sent_by history initial typed ms.
Proof.
  intros (replies & c & -> & Hc) Hc1 Hsub.
  exists (replies0 ++ replies)%list, c. split.
  - now rewrite map_app, <- !app_assoc.
  - destruct Hc as [-> | [-> | (line & Hin & ->)]]; [exact Hc1 | |].
    + right. now left.
    + right. right. eauto.
Qed.

Lemma task_loop_facts (fuel : nat) :
  forall (uc : list ContentItem) (self : Task) (w : World FS)
         (r : Res FS unit),
    abort (task_state self) = false ->
    next_task self = None ->
    task_loop env fuel uc self w = Some r ->
    exists self' w' delta replies others,
      r = Ok tt self' w'
      /\ trace w' = (trace w ++ delta)%list
      /\ next_task self' = None
      /\ conversation_history self'
         = (conversation_history self
              ++ map (mkMessage "assistant") replies)%list
      /\ Forall (fun reply => PyStr.truthy reply = true) replies
      /\ requests delta = request_messages uc self :: others
      /\ Forall (sent_by (conversation_history self) (content_text uc)
                   (inputs delta))
           (requests delta).
Proof.
  induction fuel as [|fuel IH]; intros uc self w r Hab Hnt Hrun.
  - simpl in Hrun. rewrite Hab in Hrun. discriminate.
  - cbn [task_loop] in Hrun. rewrite Hab in Hrun.
    destruct (make_request_effects uc self w Hab)
      as (did_end & self1 & w1 & d1 & Hr1 & Htr1 & Hq1 & _ & _ & Hp1 & Hh1
          & Hend & _ & _).
    rewrite Hr1 in Hrun.
    set (reply := create_message_stream env (n_requests w)
                    (request_messages uc self)) in *.
    set (text := reply_text (chunks reply)) in *.
    assert (Hfirst : forall typed,
               sent_by (conversation_history self) (content_text uc)
                 typed (request_messages uc self)).
    { intros typed. exists [], (content_text uc).
      split; [reflexivity | now left]. }
    assert (Hhist1 : exists replies1,
               conversation_history self1
               = (conversation_history self
                    ++ map (mkMessage "assistant") replies1)%list
               /\ Forall (fun reply => PyStr.truthy reply = true) replies1).
    { destruct (completed reply self1 && PyStr.truthy text) eqn:E.
      - exists [text]. split; [exact Hh1|]. constructor; [|constructor].
        apply andb_prop in E. tauto.
      - exists []. simpl. rewrite app_nil_r. auto. }
    destruct Hhist1 as (replies1 & Hhist1 & Htruthy1).
    unfold prompt_outcome in Hp1.
    destruct did_end.
    + destruct (next_task self1) as [s|] eqn:Ent1.
      * destruct (abort (task_state self1)) eqn:Hab1.
        2:{ destruct Hp1 as (_ & _ & Hn & _). congruence. }
        destruct Hp1 as (Hni & Hi & Hn). rewrite Hnt in Hn.
        symmetry in Hn. apply handoff_some in Hn. destruct Hn as [Hs Hts].
        rewrite Hts in Hrun.
        set (self2 := set_abort false (set_next_task None self1)) in Hrun.
        assert (Hself2 : abort (task_state self2) = false
                         /\ next_task self2 = None
                         /\ conversation_history self2
                            = conversation_history self1)
          by (destruct self1 as [[? ? ? ? ? ?] ? ?]; repeat split).
        destruct Hself2 as (Hab2 & Hnt2 & Hh2).
        destruct (IH _ self2 w1 r Hab2 Hnt2 Hrun)
          as (self' & w' & d2 & replies2 & others2 & Hr & Htr & Hn' & Hh'
              & Htruthy2 & Hq2 & Hall2).
        exists self', w', (EvRequest (request_messages uc self) :: d1 ++ d2)%list,
          (replies1 ++ replies2)%list, (requests d2).
        split; [exact Hr|].
        split; [now rewrite Htr, Htr1, <- app_assoc|].
        split; [exact Hn'|].
        split; [now rewrite Hh', Hh2, Hhist1, map_app, app_assoc|].
        split; [now apply Forall_app|].
        split; [simpl; now rewrite requests_app, Hq1|].
        simpl. rewrite requests_app, Hq1, inputs_app, Hi. simpl.
        constructor.
        -- apply Hfirst.
        -- eapply Forall_impl; [|exact Hall2].
           intros ms Hms. rewrite Hh2, Hhist1 in Hms.
           rewrite content_text_single in Hms.
           eapply sent_by_later; [exact Hms | |].
           ++ right. right. exists (input env (n_inputs w)).
              split; [now left | exact Hs].
           ++ intros line Hin. now right.
      * inversion Hrun; subst r.
        exists self1, w1, (EvRequest (request_messages uc self) :: d1),
          replies1, [].
        split; [reflexivity|].
        split; [exact Htr1|]. split; [exact Ent1|]. split; [exact Hhist1|].
        split; [exact Htruthy1|].
        split; [simpl; now rewrite Hq1|].
        simpl. rewrite Hq1. constructor; [|constructor].
        apply Hfirst.
    + assert (Hc : completed reply self1 = true).
      { destruct (completed reply self1); [reflexivity|].
        simpl in Hend. discriminate. }
      assert (Hab1 : abort (task_state self1) = false).
      { unfold completed in Hc. apply andb_prop in Hc. destruct Hc as [Hc _].
        now destruct (abort (task_state self1)). }
      rewrite Hab1 in Hp1. destruct Hp1 as (Hni & Hi & Hn & _).
      rewrite Hnt in Hn.
      destruct (IH _ self1 w1 r Hab1 Hn Hrun)
        as (self' & w' & d2 & replies2 & others2 & Hr & Htr & Hn' & Hh'
            & Htruthy2 & Hq2 & Hall2).
      exists self', w', (EvRequest (request_messages uc self) :: d1 ++ d2)%list,
        (replies1 ++ replies2)%list, (requests d2).
      split; [exact Hr|].
      split; [now rewrite Htr, Htr1, <- app_assoc|].
      split; [exact Hn'|].
      split; [now rewrite Hh', Hhist1, map_app, app_assoc|].
      split; [now apply Forall_app|].
      split; [simpl; now rewrite requests_app, Hq1|].
      simpl. rewrite requests_app, Hq1, inputs_app, Hi. simpl.
      constructor.
      * apply Hfirst.
      * eapply Forall_impl; [|exact Hall2].
        intros ms Hms. rewrite Hhist1 in Hms.
        rewrite content_text_single in Hms.
        eapply sent_by_later; [exact Hms | | auto].
        right. now left.
Qed.

End TurnEffects.

Lemma parse_known_tools (message : string) :
  Forall known_tool (MessageParser.parse_assistant_message message).
Proof.
  apply parse_forall.
  - intros s _. exact I.
  - apply Forall_forall. intros m Hin. simpl.
    now apply finditer_from_name in Hin.
Qed.

Lemma turn_trace_aborted (index : nat) (aborted : bool) (acc : list Event) :
  turn_trace index aborted acc ->
  existsb is_completion (visited acc) = aborted.
Proof.
  destruct aborted; simpl.
  - intros (front & b & line & -> & Hb & _).
    rewrite visited_app, existsb_app. simpl. rewrite Hb.
    now rewrite orb_true_r.
  - intros (_ & Hc & _).
    destruct (existsb is_completion (visited acc)) eqn:E; [|reflexivity].
    apply existsb_exists in E. destruct E as (b & Hin & Hb).
    apply (proj1 (Forall_forall _ _) Hc) in Hin. congruence.
Qed.


Section TurnTheorems.

Variable FS : Type.
Variable env : Env FS.

(** The two descriptions of a turn, of its trace and of its effects,
    are of the same events. *)
Lemma make_request_full (uc : list ContentItem) (self : Task) (w : World FS) :
  let messages := request_messages uc self in
  let reply := create_message_stream env (n_requests w) messages in
  let text := reply_text (chunks reply) in
  abort (task_state self) = false ->
  exists did_end self' w' delta,
    _make_request env uc self w = Ok did_end self' w'
    /\ trace w' = (trace w ++ EvRequest messages :: delta)%list
    /\ turn_trace (current_streaming_content_index (task_state self'))
         (abort (task_state self')) delta
    /\ requests delta = []
    /\ user_message_content (task_state self') = results delta
    /\ Forall parsed (visited delta)
    /\ prompt_outcome env self w self' w' delta
    /\ conversation_history self'
       = (if completed reply self' && PyStr.truthy text
          then (conversation_history self ++ [mkMessage "assistant" text])%list
          else conversation_history self)
    /\ did_end
       = negb (completed reply self' && PyStr.truthy text
               && negb (existsb is_tool_use
                          (assistant_message_content (task_state self'))))
    /\ (completed reply self' = true ->
        assistant_message_content (task_state self')
        = MessageParser.parse_assistant_message text)
    /\ is_streaming (task_state self') = false.
Proof.
  intros messages reply text Hab.
  destruct (make_request_spec FS env uc self w Hab)
    as (did_end0 & self0 & w0 & acc & Hr0 & Htr0 & Htt & _).
  destruct (make_request_effects FS env uc self w Hab)
    as (did_end & self' & w' & delta & Hr & Htr & Hrest).
  rewrite Hr in Hr0. inversion Hr0; subst did_end0 self0 w0.
  fold messages in Htr0, Htr. rewrite Htr in Htr0.
  apply app_inv_head in Htr0. inversion Htr0; subst acc.
  exists did_end, self', w', delta. fold messages reply text in Hrest.
  tauto.
Qed.

(** X9: a turn that starts with the task not aborted sends one request,
    before anything else, and ends with [user_message_content] holding
    the result entries of the tools it ran, one for each in the order
    they ran, each of the form ["Tool <name> result:\n<result>"], and
    nothing else. *)
Theorem pending_results_are_tool_results (uc : list ContentItem)
    (self : Task) (w : World FS) :
  abort (task_state self) = false ->
  exists did_end self' w' delta,
    _make_request env uc self w = Ok did_end self' w'
    /\ trace w'
       = (trace w ++ EvRequest (request_messages uc self) :: delta)%list
    /\ requests delta = []
    /\ user_message_content (task_state self') = results delta.
Proof.
  intros Hab.
  destruct (make_request_full uc self w Hab)
    as (did_end & self' & w' & delta & Hr & Htr & _ & Hq & Hu & _).
  eauto 10.
Qed.


(** X11: a turn prompts the operator at most once, and does so exactly
    when it reads a completion call, which is also exactly when it aborts
    the task.  The answer, stripped, becomes [next_task] unless it is
    empty or one of [quit], [exit], [q] in any letter case; without a
    prompt [next_task] is unchanged. *)
Theorem prompt_only_at_completion (uc : list ContentItem) (self : Task)
    (w : World FS) :
  abort (task_state self) = false ->
  exists did_end self' w' delta,
    _make_request env uc self w = Ok did_end self' w'
    /\ trace w'
       = (trace w ++ EvRequest (request_messages uc self) :: delta)%list
    /\ abort (task_state self') = existsb is_completion (visited delta)
    /\ inputs delta
       = (if abort (task_state self') then [input env (n_inputs w)] else [])
    /\ n_inputs w'
       = (if abort (task_state self') then S (n_inputs w) else n_inputs w)
    /\ next_task self'
       = (if abort (task_state self')
          then handoff (input env (n_inputs w)) (next_task self)
          else next_task self).
Proof.
  intros Hab.
  destruct (make_request_full uc self w Hab)
    as (did_end & self' & w' & delta & Hr & Htr & Htt & _ & _ & _ & Hp & _).
  exists did_end, self', w', delta.
  split; [exact Hr|]. split; [exact Htr|].
  split; [symmetry; eapply turn_trace_aborted; exact Htt|].
  unfold prompt_outcome in Hp.
  destruct (abort (task_state self')); tauto.
Qed.


Lemma dispatched_runnable (b : Block) :
  parsed b -> is_dispatched b = true -> runnable b.
Proof.
  intros Hp Hd. split; [exact Hp|].
  destruct Hp as [buffer Hin].
  pose proof (proj1 (Forall_forall _ _) (parse_known_tools buffer) b Hin)
    as Hk.
  destruct b as [c p | name params [|]]; simpl in Hd; try discriminate.
  exists name, params. split; [reflexivity|].
  simpl in Hk. unfold dispatched_tools.
  destruct Hk as [<-|[<-|[<-|[<-|[<-|[]]]]]]; simpl; auto.
  discriminate.
Qed.

(** X13: the blocks handed to [execute_tool] in a turn are finalized
    invocations of [read_file], [write_to_file], [execute_command] or
    [list_files] that the parser returned for some buffer: presentation
    never reaches the [attempt_completion] and the unknown-tool branches
    of the dispatcher. *)
Theorem only_parsed_known_tools_run (uc : list ContentItem) (self : Task)
    (w : World FS) :
  abort (task_state self) = false ->
  exists did_end self' w' delta,
    _make_request env uc self w = Ok did_end self' w'
    /\ trace w'
       = (trace w ++ EvRequest (request_messages uc self) :: delta)%list
    /\ Forall runnable (executed delta).
Proof.
  intros Hab.
  destruct (make_request_full uc self w Hab)
    as (did_end & self' & w' & delta & Hr & Htr & Htt & _ & _ & Hv & _).
  exists did_end, self', w', delta.
  split; [exact Hr|]. split; [exact Htr|].
  apply turn_trace_visits in Htt. destruct Htt as [_ He]. rewrite He.
  apply Forall_forall. intros b Hin. apply filter_In in Hin.
  destruct Hin as [Hin Hd].
  apply dispatched_runnable; [|exact Hd].
  exact (proj1 (Forall_forall _ _) Hv b Hin).
Qed.

(** X14: when the backend fails, the turn returns [True] with the
    history as it was (the text received so far is dropped) and
    [is_streaming] reset, and unless a handoff was set before the failure
    the task loop stops there. *)
Theorem backend_failure_ends_turn (uc : list ContentItem) (self : Task)
    (w : World FS) (e : string) :
  abort (task_state self) = false ->
  failure (create_message_stream env (n_requests w)
             (request_messages uc self)) = Some e ->
  exists self' w',
    _make_request env uc self w = Ok true self' w'
    /\ conversation_history self' = conversation_history self
    /\ is_streaming (task_state self') = false
    /\ (next_task self' = None ->
        forall fuel,
          task_loop env (S fuel) uc self w = Some (Ok tt self' w')).
Proof.
  intros Hab Hfail.
  destruct (make_request_full uc self w Hab)
    as (did_end & self' & w' & delta & Hr & _ & _ & _ & _ & _ & _ & Hh & Hd
        & _ & Hs).
  assert (Hc : completed
                 (create_message_stream env (n_requests w)
                    (request_messages uc self)) self' = false).
  { unfold completed, succeeded. rewrite Hfail. apply andb_false_r. }
  rewrite Hc in Hh, Hd. simpl in Hh, Hd. subst did_end.
  exists self', w'. split; [exact Hr|]. split; [exact Hh|].
  split; [exact Hs|].
  intros Hnt fuel. cbn [task_loop]. now rewrite Hab, Hr, Hnt.
Qed.

Lemma start_task_facts (fuel : nat) (initial_task : string) (self : Task)
    (w : World FS) (r : Res FS unit) :
  abort (task_state self) = false ->
  next_task self = None ->
  start_task env fuel initial_task self w = Some r ->
  exists self' w' delta replies others,
    r = Ok tt self' w'
    /\ trace w' = (trace w ++ delta)%list
    /\ next_task self' = None
    /\ conversation_history self'
       = mkMessage "user" initial_task
           :: map (mkMessage "assistant") replies
    /\ Forall (fun reply => PyStr.truthy reply = true) replies
    /\ requests delta
       = [mkMessage "user" initial_task; mkMessage "user" initial_task]
           :: others
    /\ Forall (sent_by [mkMessage "user" initial_task] initial_task
                 (inputs delta))
         (requests delta).
Proof.
  intros Hab Hnt Hrun. unfold start_task, _task_loop in Hrun.
  apply (task_loop_facts FS env) in Hrun.
  - destruct Hrun as (self' & w' & delta & replies & others & Hr & Htr & Hn
                      & Hh & Ht & Hq & Hall).
    exists self', w', delta, replies, others.
    unfold request_messages in Hq.
    rewrite content_text_single in Hq, Hall.
    repeat split; auto.
  - exact Hab.
  - exact Hnt.
Qed.

(** X15: every request of a task is the initial history, then the
    replies of the assistant so far, then one user message whose content
    is the initial task, the fixed continuation prompt, or a line the
    operator typed, stripped; a run of [start_task] that ends, ends
    normally. *)
Theorem requests_come_from_operator (fuel : nat) (initial_task : string)
    (self : Task) (w : World FS) (r : Res FS unit) :
  abort (task_state self) = false ->
  next_task self = None ->
  start_task env fuel initial_task self w = Some r ->
  exists self' w' delta,
    r = Ok tt self' w'
    /\ trace w' = (trace w ++ delta)%list
    /\ Forall (sent_by [mkMessage "user" initial_task] initial_task
                 (inputs delta))
         (requests delta).
Proof.
  intros Hab Hnt Hrun.
  destruct (start_task_facts fuel initial_task self w r Hab Hnt Hrun)
    as (self' & w' & delta & replies & others & Hr & Htr & _ & _ & _ & _
        & Hall).
  eauto 10.
Qed.

(** X16: when a task ends its history is the initial task followed by
    non-empty assistant messages: the user contents of the later
    requests (continuation prompts, handoff strings) are not kept, and a
    handoff does not start the history afresh. *)
Theorem history_keeps_replies_only (fuel : nat) (initial_task : string)
    (self : Task) (w : World FS) (r : Res FS unit) :
  abort (task_state self) = false ->
  next_task self = None ->
  start_task env fuel initial_task self w = Some r ->
  exists self' w' replies,
    r = Ok tt self' w'
    /\ conversation_history self'
       = mkMessage "user" initial_task
           :: map (mkMessage "assistant") replies
    /\ Forall (fun reply => PyStr.truthy reply = true) replies.
Proof.
  intros Hab Hnt Hrun.
  destruct (start_task_facts fuel initial_task self w r Hab Hnt Hrun)
    as (self' & w' & delta & replies & others & Hr & _ & _ & Hh & Ht & _).
  eauto 10.
Qed.

(** X17: a task that starts without a handoff string ends without one:
    a handoff set by a turn is consumed by the loop before it stops. *)
Theorem task_ends_without_handoff (fuel : nat) (initial_task : string)
    (self : Task) (w : World FS) (r : Res FS unit) :
  abort (task_state self) = false ->
  next_task self = None ->
  start_task env fuel initial_task self w = Some r ->
  exists self' w',
    r = Ok tt self' w' /\ next_task self' = None.
Proof.
  intros Hab Hnt Hrun.
  destruct (start_task_facts fuel initial_task self w r Hab Hnt Hrun)
    as (self' & w' & delta & replies & others & Hr & _ & Hn & _).
  eauto.
Qed.


End TurnTheorems.


Lemma task_ends_without_handoff_witness :
  abort (task_state new_task) = false
  /\ next_task new_task = None
  /\ start_task Scenario.finisher 5 "t1" new_task Scenario.world0
     = Some Runs.finisher_result
  /\ exists self' w',
       Runs.finisher_result = Ok tt self' w' /\ next_task self' = None.
Proof.
  assert (H1 : abort (task_state new_task) = false) by reflexivity.
  assert (H2 : next_task new_task = None) by reflexivity.
  assert (H3 : start_task Scenario.finisher 5 "t1" new_task Scenario.world0
               = Some Runs.finisher_result)
    by (vm_compute; reflexivity).
  split; [exact H1|]. split; [exact H2|]. split; [exact H3|].
  exact (task_ends_without_handoff unit Scenario.finisher 5 "t1" new_task Scenario.world0
           Runs.finisher_result H1 H2 H3).
Defined.

Lemma history_keeps_replies_only_witness :
  abort (task_state new_task) = false
  /\ next_task new_task = None
  /\ start_task Scenario.finisher 5 "t1" new_task Scenario.world0
     = Some Runs.finisher_result
  /\ exists self' w' replies,
       Runs.finisher_result = Ok tt self' w'
       /\ conversation_history self'
          = mkMessage "user" "t1" :: map (mkMessage "assistant") replies
       /\ Forall (fun reply => PyStr.truthy reply = true) replies.
Proof.
  assert (H1 : abort (task_state new_task) = false) by reflexivity.
  assert (H2 : next_task new_task = None) by reflexivity.
  assert (H3 : start_task Scenario.finisher 5 "t1" new_task Scenario.world0
               = Some Runs.finisher_result)
    by (vm_compute; reflexivity).
  split; [exact H1|]. split; [exact H2|]. split; [exact H3|].
  exact (history_keeps_replies_only unit Scenario.finisher 5 "t1" new_task Scenario.world0
           Runs.finisher_result H1 H2 H3).
Defined.

Lemma requests_come_from_operator_witness :
  abort (task_state new_task) = false
  /\ next_task new_task = None
  /\ start_task Scenario.finisher 5 "t1" new_task Scenario.world0
     = Some Runs.finisher_result
  /\ exists self' w' delta,
       Runs.finisher_result = Ok tt self' w'
       /\ trace w' = (trace Scenario.world0 ++ delta)%list
       /\ Forall (sent_by [mkMessage "user" "t1"] "t1" (inputs delta))
            (requests delta).
Proof.
  assert (H1 : abort (task_state new_task) = false) by reflexivity.
  assert (H2 : next_task new_task = None) by reflexivity.
  assert (H3 : start_task Scenario.finisher 5 "t1" new_task Scenario.world0
               = Some Runs.finisher_result)
    by (vm_compute; reflexivity).
  split; [exact H1|]. split; [exact H2|]. split; [exact H3|].
  exact (requests_come_from_operator unit Scenario.finisher 5 "t1" new_task Scenario.world0
           Runs.finisher_result H1 H2 H3).
Defined.

Lemma backend_failure_ends_turn_witness :
  abort (task_state (Scenario.started "t")) = false
  /\ failure (create_message_stream Runs.broken (n_requests Scenario.world0)
                (request_messages [text_item "t"] (Scenario.started "t")))
     = Some "connection reset"
  /\ exists self' w',
       _make_request Runs.broken [text_item "t"] (Scenario.started "t")
         Scenario.world0
       = Ok true self' w'
       /\ conversation_history self'
          = conversation_history (Scenario.started "t")
       /\ is_streaming (task_state self') = false
       /\ (next_task self' = None ->
           forall fuel,
             task_loop Runs.broken (S fuel) [text_item "t"]
               (Scenario.started "t") Scenario.world0
             = Some (Ok tt self' w')).
Proof.
  assert (H1 : abort (task_state (Scenario.started "t")) = false)
    by reflexivity.
  assert (H2 : failure
                 (create_message_stream Runs.broken
                    (n_requests Scenario.world0)
                    (request_messages [text_item "t"] (Scenario.started "t")))
               = Some "connection reset")
    by reflexivity.
  split; [exact H1|]. split; [exact H2|].
  exact (backend_failure_ends_turn unit Runs.broken [text_item "t"]
           (Scenario.started "t") Scenario.world0 "connection reset" H1 H2).
Defined.

Lemma only_parsed_known_tools_run_witness :
  abort (task_state (Scenario.started "t")) = false
  /\ exists did_end self' w' delta,
       _make_request Scenario.reader [text_item "t"] (Scenario.started "t")
         Scenario.world0
       = Ok did_end self' w'
       /\ trace w'
          = (trace Scenario.world0
               ++ EvRequest
                    (request_messages [text_item "t"] (Scenario.started "t"))
               :: delta)%list
       /\ Forall runnable (executed delta).
Proof.
  assert (H : abort (task_state (Scenario.started "t")) = false)
    by reflexivity.
  split; [exact H|].
  exact (only_parsed_known_tools_run unit Scenario.reader [text_item "t"] (Scenario.started "t")
           Scenario.world0 H).
Defined.


Lemma prompt_only_at_completion_witness :
  abort (task_state (Scenario.started "t1")) = false
  /\ exists did_end self' w' delta,
       _make_request Scenario.finisher [text_item "t1"]
         (Scenario.started "t1") Scenario.world0
       = Ok did_end self' w'
       /\ trace w'
          = (trace Scenario.world0
               ++ EvRequest
                    (request_messages [text_item "t1"]
                       (Scenario.started "t1"))
               :: delta)%list
       /\ abort (task_state self') = existsb is_completion (visited delta)
       /\ inputs delta
          = (if abort (task_state self')
             then [input Scenario.finisher (n_inputs Scenario.world0)]
             else [])
       /\ n_inputs w'
          = (if abort (task_state self')
             then S (n_inputs Scenario.world0)
             else n_inputs Scenario.world0)
       /\ next_task self'
          = (if abort (task_state self')
             then handoff (input Scenario.finisher (n_inputs Scenario.world0))
                    (next_task (Scenario.started "t1"))
             else next_task (Scenario.started "t1")).
Proof.
  assert (H : abort (task_state (Scenario.started "t1")) = false)
    by reflexivity.
  split; [exact H|].
  exact (prompt_only_at_completion unit Scenario.finisher [text_item "t1"]
           (Scenario.started "t1") Scenario.world0 H).
Defined.


Lemma pending_results_are_tool_results_witness :
  abort (task_state (Scenario.started "t")) = false
  /\ exists did_end self' w' delta,
       _make_request Scenario.reader [text_item "t"] (Scenario.started "t")
         Scenario.world0
       = Ok did_end self' w'
       /\ trace w'
          = (trace Scenario.world0
               ++ EvRequest
                    (request_messages [text_item "t"] (Scenario.started "t"))
               :: delta)%list
       /\ requests delta = []
       /\ user_message_content (task_state self') = results delta.
Proof.
  assert (H : abort (task_state (Scenario.started "t")) = false)
    by reflexivity.
  split; [exact H|].
  exact (pending_results_are_tool_results unit Scenario.reader [text_item "t"] (Scenario.started "t")
           Scenario.world0 H).
Defined.

(** ** A reply in one delta *)

Section SingleDelta.

Variable FS : Type.
Variable env : Env FS.








End SingleDelta.

